(** * ProvaMob4: the metrics decoder and the record collector

    A shallow embedding of [Routes/processes_routes.py] and of the upload
    route of [Routes/uploadDb_routes.py], with the properties of the
    decoding and collection pipeline proved over it.

    Conventions of the embedding:
    - a Python [str] is a [string]; its characters are the code points
      below 256, so the white space of [str.strip], [int] and [float] is the
      white space of that range and the decimal digits are ['0'..'9'];
    - a Python [int] is a [Z]; a Python [float] is an IEEE 754 binary64
      number, a [spec_float] at precision 53 and maximal exponent 1024;
    - an exception is a value of [exn], and a call that may raise returns a
      [result];
    - the SQLite file is a finite map from table names to the rows of the
      table, in storage order. *)

From Stdlib Require Import ZArith String Ascii List Bool Lia.
From Stdlib Require Import Floats.SpecFloat Numbers.DecimalString.
From Stdlib Require Import Sorting.Sorted Sorting.Permutation.
From stdpp Require Import base option gmap strings list.

Open Scope string_scope.
Open Scope Z_scope.

(** ** Exceptions and results *)

Inductive exn : Type :=
  | HTTPException (status_code : Z) (detail : string)
  | IndexError
  | ValueError
  | KeyError (key : string)
  | OverflowError
  | ZeroDivisionError
  | TypeError
  | DatabaseError.

Inductive result (A : Type) : Type :=
  | Ok (a : A)
  | Raise (e : exn).

Arguments Ok {A} a.
Arguments Raise {A} e.

Definition bind {A B : Type} (r : result A) (k : A -> result B) : result B :=
  match r with
  | Ok a => k a
  | Raise e => Raise e
  end.

Notation "'let*' x ':=' r 'in' k" := (bind r (fun x => k))
  (at level 10, x name, r at level 100, k at level 200).

(** [try: body except (IndexError, ValueError): handler] *)
Definition try_except {A : Type} (body : result A) (caught : exn -> bool)
    (handler : A) : result A :=
  match body with
  | Ok a => Ok a
  | Raise e => if caught e then Ok handler else Raise e
  end.

Definition IndexError_or_ValueError (e : exn) : bool :=
  match e with
  | IndexError | ValueError => true
  | _ => false
  end.

(** ** The Python built-ins the routes call *)

Module Py.

Definition code (c : ascii) : Z := Z.of_N (N_of_ascii c).

(** [str.isspace] on one character of the range. *)
Definition isspace (c : ascii) : bool :=
  let n := code c in
  ((9 <=? n) && (n <=? 13)) || ((28 <=? n) && (n <=? 32))
  || (n =? 133) || (n =? 160).

Definition isdigit (c : ascii) : bool :=
  let n := code c in (48 <=? n) && (n <=? 57).

Definition digit_value (c : ascii) : Z := code c - 48.

Fixpoint lstrip (s : string) : string :=
  match s with
  | EmptyString => EmptyString
  | String c s' => if isspace c then lstrip s' else s
  end.

Fixpoint rstrip (s : string) : string :=
  match s with
  | EmptyString => EmptyString
  | String c s' =>
      match rstrip s' with
      | EmptyString => if isspace c then EmptyString else String c EmptyString
      | r => String c r
      end
  end.

(** [s.strip()] *)
Definition strip (s : string) : string := rstrip (lstrip s).

(** [s.split(sep)] for a one-character separator: the pieces between the
    separators, empty pieces kept; the empty string gives one empty
    piece. [split_pieces] returns the first piece and the others. *)
Fixpoint split_pieces (sep : ascii) (s : string) : string * list string :=
  match s with
  | EmptyString => (EmptyString, [])
  | String c s' =>
      let '(p, ps) := split_pieces sep s' in
      if Ascii.eqb c sep then (EmptyString, p :: ps) else (String c p, ps)
  end.

Definition split (sep : ascii) (s : string) : list string :=
  let '(p, ps) := split_pieces sep s in p :: ps.

(** [c.lower()] on one character of the range. *)
Definition lower_char (c : ascii) : ascii :=
  let n := code c in
  if ((65 <=? n) && (n <=? 90))
     || ((192 <=? n) && (n <=? 222) && negb (n =? 215))
  then ascii_of_N (Z.to_N (n + 32)) else c.

Fixpoint lower (s : string) : string :=
  match s with
  | EmptyString => EmptyString
  | String c s' => String (lower_char c) (lower s')
  end.

(** [s.endswith(suffix)] *)
Definition endswith (s suffix : string) : bool :=
  let n := String.length s in
  let k := String.length suffix in
  (k <=? n)%nat && String.eqb (substring (n - k) k s) suffix.

(** [s.endswith((a, b, ...))] *)
Definition endswith_any (s : string) (suffixes : list string) : bool :=
  existsb (endswith s) suffixes.

(** Truth value of a string: non-empty. *)
Definition truthy_str (s : string) : bool := negb (String.eqb s EmptyString).

(** *** [int(v)] on a string *)

(** The digits of a numeral, most significant first, with the single
    underscores Python allows between two digits. [after_digit] tells
    whether the previous character was a digit. Returns the value
    accumulated, the number of digits read and the rest of the string. *)
Fixpoint scan_digits (s : string) (after_digit : bool) (acc : Z) (n : nat)
    : option (Z * nat * string) :=
  match s with
  | EmptyString => Some (acc, n, s)
  | String c s' =>
      if isdigit c then scan_digits s' true (10 * acc + digit_value c) (S n)
      else if Ascii.eqb c "_" then
        if after_digit then
          match s' with
          | String d _ => if isdigit d then scan_digits s' false acc n else None
          | EmptyString => None
          end
        else None
      else Some (acc, n, s)
  end.

(** The sign in front of a numeral: [true] for a minus. *)
Definition scan_sign (s : string) : bool * string :=
  match s with
  | String "-" s' => (true, s')
  | String "+" s' => (false, s')
  | _ => (false, s)
  end.

(** CPython's default limit on the digits of a decimal string converted to
    [int] (sys.int_info.default_max_str_digits). *)
Definition int_max_str_digits : nat := 4300.

Definition int (v : string) : result Z :=
  let '(neg, body) := scan_sign (strip v) in
  match scan_digits body false 0 0 with
  | Some (z, n, EmptyString) =>
      if (n =? 0)%nat then Raise ValueError
      else if (int_max_str_digits <? n)%nat then Raise ValueError
      else Ok (if neg then - z else z)
  | _ => Raise ValueError
  end.

(** *** Floats *)

Definition float : Type := spec_float.
Definition prec : Z := 53.
Definition emax : Z := 1024.

Definition float_zero : float := S754_zero false.

(** Truth value of a float: [x != 0.0]. *)
Definition truthy_float (x : float) : bool :=
  match x with
  | S754_zero _ => false
  | _ => true
  end.

(** [x == y] on floats. *)
Definition float_eqb (x y : float) : bool := SFeqb x y.

(** [float(z)] on an int: the nearest float, ties to even; an int beyond
    the range of the finite floats raises. *)
Definition float_of_int (z : Z) : result float :=
  match binary_normalize prec emax z 0 false with
  | S754_infinity _ => Raise OverflowError
  | x => Ok x
  end.

(** [x / y] on floats. *)
Definition truediv (x y : float) : result float :=
  match y with
  | S754_zero _ => Raise ZeroDivisionError
  | _ => Ok (SFdiv prec emax x y)
  end.

(** The float nearest to [m * 10^e], for [0 <= m], with the sign [neg]. *)
Definition float_of_decimal (neg : bool) (m e : Z) : float :=
  match m with
  | Zpos p =>
      if 0 <=? e then binary_round prec emax neg (Z.to_pos (m * 10 ^ e)) 0
      else
        let d := 10 ^ (- e) in
        let k := Z.max 0 (Zdigits2 d - Zdigits2 m + 64) in
        let '(q, r) := Z.div_eucl (Z.shiftl m k) d in
        binary_round_aux prec emax neg q (- k) (new_location d r)
  | _ => S754_zero neg
  end.

(** The exponent part of a decimal literal: nothing, or [e] or [E], a
    sign and at least one digit. *)
Definition scan_exponent (s : string) : option (Z * string) :=
  match s with
  | String c s' =>
      if Ascii.eqb c "e" || Ascii.eqb c "E" then
        let '(neg, body) := scan_sign s' in
        match scan_digits body false 0 0 with
        | Some (z, n, rest) =>
            if (n =? 0)%nat then None else Some (if neg then - z else z, rest)
        | None => None
        end
      else Some (0, s)
  | EmptyString => Some (0, s)
  end.

(** Underscores are allowed in a float literal between two digits only. *)
Fixpoint underscores_ok (s : string) (prev : ascii) : bool :=
  match s with
  | EmptyString => negb (Ascii.eqb prev "_")
  | String c s' =>
      (if Ascii.eqb c "_" then isdigit prev
       else negb (Ascii.eqb prev "_") || isdigit c)
      && underscores_ok s' c
  end.

Fixpoint remove_underscores (s : string) : string :=
  match s with
  | EmptyString => EmptyString
  | String c s' =>
      if Ascii.eqb c "_" then remove_underscores s'
      else String c (remove_underscores s')
  end.

Fixpoint scan_plain_digits (s : string) (acc : Z) (n : nat) : Z * nat * string :=
  match s with
  | EmptyString => (acc, n, s)
  | String c s' =>
      if isdigit c then scan_plain_digits s' (10 * acc + digit_value c) (S n)
      else (acc, n, s)
  end.

Definition float_of_str (v : string) : result float :=
  let s := strip v in
  if negb (underscores_ok s "000") then Raise ValueError
  else
    let '(neg, body) := scan_sign (remove_underscores s) in
    let word := lower body in
    if String.eqb word "inf" || String.eqb word "infinity"
    then Ok (S754_infinity neg)
    else if String.eqb word "nan" then Ok S754_nan
    else
      let '(ip, ni, r1) := scan_plain_digits body 0 0 in
      let '(fp, nf, r2) :=
        match r1 with
        | String "." r => scan_plain_digits r ip 0
        | _ => (ip, 0%nat, r1)
        end in
      if (ni + nf =? 0)%nat then Raise ValueError
      else
        match scan_exponent r2 with
        | Some (ex, EmptyString) =>
            Ok (float_of_decimal neg fp (ex - Z.of_nat nf))
        | _ => Raise ValueError
        end.

(** [a or b] on an optional int and on an optional float: [a] when it is
    neither [None] nor zero. *)
Definition or_int (a : option Z) (b : Z) : Z :=
  match a with
  | Some z => if z =? 0 then b else z
  | None => b
  end.

Definition or_float (a : option float) (b : float) : float :=
  match a with
  | Some x => if truthy_float x then x else b
  | None => b
  end.

(** [str(z)] on an int. *)
Definition str_of_int (z : Z) : string :=
  NilZero.string_of_int (Z.to_int z).

(** [float(a)] on an optional int. *)
Definition float_of_opt_int (a : option Z) : result float :=
  match a with
  | Some z => float_of_int z
  | None => Raise TypeError
  end.

(** Truth value of an optional int, and [a != b] on one. *)
Definition truthy_opt_int (a : option Z) : bool :=
  match a with
  | Some z => negb (z =? 0)
  | None => false
  end.

Definition ne_opt_int (a : option Z) (b : Z) : bool :=
  match a with
  | Some z => negb (z =? b)
  | None => true
  end.

(** [l[i]] on a list, [d[k]] and [k in d] on a dict. *)
Definition getitem {A : Type} (l : list A) (i : nat) : result A :=
  match l !! i with
  | Some a => Ok a
  | None => Raise IndexError
  end.

Definition getkey {A : Type} (d : gmap string A) (k : string) : result A :=
  match d !! k with
  | Some a => Ok a
  | None => Raise (KeyError k)
  end.

Definition contains {A : Type} (d : gmap string A) (k : string) : bool :=
  match d !! k with
  | Some _ => true
  | None => false
  end.

(** [l.sort(key=key, reverse=True)]: the sort is stable, and stays so
    under [reverse=True]: elements of equal key keep their order. The
    result of a stable sort is unique, so an insertion sort gives it. *)
Section Sort.
Context {A : Type} (key : A -> Z).

Fixpoint insert_reverse (x : A) (l : list A) : list A :=
  match l with
  | [] => [x]
  | y :: l' =>
      if key y <=? key x then x :: l else y :: insert_reverse x l'
  end.

Fixpoint sort_reverse (l : list A) : list A :=
  match l with
  | [] => []
  | x :: l' => insert_reverse x (sort_reverse l')
  end.
End Sort.

End Py.

(** ** Routes/processes_routes.py *)

(** A value stored in a column of loose type: [NULL], an integer or a
    text. *)
Inductive sql_value : Type :=
  | SqlNull
  | SqlInteger (z : Z)
  | SqlText (s : string).

(** [str(v)] on a stored value. *)
Definition str (v : sql_value) : string :=
  match v with
  | SqlNull => "None"
  | SqlInteger z => Py.str_of_int z
  | SqlText s => s
  end.

(** A row of [SELECT PackageName, Uid, Pids, Metrics FROM t]. The types
    are those [parse_metrics] declares for what it is given: [PackageName]
    is a text; [Metrics] is a text or [NULL], which the guard at the head
    of [parse_metrics] expects; [Uid] is whatever [str] is applied to. *)
Record Row : Type := {
  PackageName : string;
  Uid : sql_value;
  Pids : sql_value;
  Metrics : option string
}.

(** The file at [DB_PATH], when it parses as a database: the tables of
    [sqlite_master] by name. *)
Inductive db_file : Type :=
  | SqliteFile (tables : gmap string (list Row))
  | NotADatabase.

(** The storage: [None] when no file exists at [DB_PATH]. *)
Definition storage : Type := option db_file.

Definition DB_PATH : string := "data/live.sqlite".

Definition TABLES : list string := ["processes1"; "processes2"; "processes3"].

Definition METRICS_INDEX : gmap string nat :=
  list_to_map [
    ("timestramp", 0%nat);
    ("usage_time", 1%nat);
    ("delta_cpu_time", 2%nat);
    ("cpu_usage", 3%nat);
    ("rx_data", 4%nat);
    ("tx_data", 5%nat)
  ].

(** The dict a decoded chunk becomes. *)
Record Sample : Type := {
  timestramp : Z;
  uid : string;
  package_name : string;
  usage_time : Z;
  delta_cpu_time : Z;
  cpu_usage : Py.float;
  rx_data : Z;
  tx_data : Z
}.

Definition connect (fs : storage) : result db_file :=
  match fs with
  | None => Raise (HTTPException 400 "Nenhum banco enviado. Use / (upload).")
  | Some conn => Ok conn
  end.

Definition table_exists (conn : db_file) (name : string) : result bool :=
  match conn with
  | SqliteFile tables => Ok (bool_decide (is_Some (tables !! name)))
  | NotADatabase => Raise DatabaseError
  end.

(** [conn.execute(f"SELECT PackageName, Uid, Pids, Metrics FROM {t}")] *)
Definition select_rows (conn : db_file) (t : string) : result (list Row) :=
  match conn with
  | SqliteFile tables =>
      match tables !! t with
      | Some rows => Ok rows
      | None => Raise DatabaseError
      end
  | NotADatabase => Raise DatabaseError
  end.

Definition geti (parts : list string) (i : nat) : result (option Z) :=
  try_except
    (let* v := Py.getitem parts i in
     if String.eqb v EmptyString then Ok None
     else let* z := Py.int v in Ok (Some z))
    IndexError_or_ValueError None.

Definition getf (parts : list string) (i : nat) : result (option Py.float) :=
  try_except
    (let* v := Py.getitem parts i in
     if String.eqb v EmptyString then Ok None
     else let* x := Py.float_of_str v in Ok (Some x))
    IndexError_or_ValueError None.

(** The body of the loop of [parse_metrics] on one chunk: the sample to
    append, or [None] where the loop continues without one. *)
Definition parse_chunk (chunk pkg uid : string) : result (option Sample) :=
  let parts := Py.split ":" chunk in
  let* ts := (let* i := Py.getkey METRICS_INDEX "timestramp" in geti parts i) in
  let* usage := (let* i := Py.getkey METRICS_INDEX "usage_time" in geti parts i) in
  let* dcpu := (let* i := Py.getkey METRICS_INDEX "delta_cpu_time" in geti parts i) in
  let* cpu := (let* i := Py.getkey METRICS_INDEX "cpu_usage" in getf parts i) in
  let* rx :=
    (if Py.contains METRICS_INDEX "rx_data"
     then let* i := Py.getkey METRICS_INDEX "rx_data" in geti parts i
     else Ok None) in
  let* tx := (let* i := Py.getkey METRICS_INDEX "tx_data" in geti parts i) in
  let* cpu :=
    (if negb (bool_decide (is_Some cpu)) && Py.truthy_opt_int usage
        && Py.ne_opt_int usage 0 && bool_decide (is_Some dcpu)
     then
       let* x := Py.float_of_opt_int dcpu in
       let* y := Py.float_of_opt_int usage in
       let* q := Py.truediv x y in
       Ok (Some q)
     else Ok cpu) in
  match ts with
  | None => Ok None
  | Some ts =>
      (* [str(uid)] is [uid], which is a string *)
      Ok (Some {|
        timestramp := ts;
        uid := uid;
        package_name := pkg;
        usage_time := Py.or_int usage 0;
        delta_cpu_time := Py.or_int dcpu 0;
        cpu_usage := Py.or_float cpu Py.float_zero;
        rx_data := Py.or_int rx 0;
        tx_data := Py.or_int tx 0
      |})
  end.

(** The loop of [parse_metrics] over the chunks, [out] being the list built
    so far. *)
Fixpoint parse_chunks (chunks : list string) (pkg uid : string)
    (out : list Sample) : result (list Sample) :=
  match chunks with
  | [] => Ok out
  | chunk :: chunks' =>
      let* o := parse_chunk chunk pkg uid in
      match o with
      | None => parse_chunks chunks' pkg uid out
      | Some s => parse_chunks chunks' pkg uid (out ++ [s])
      end
  end.

(** The chunks the loop visits: the pieces of [metrics.split] at the
    semicolons whose [strip] is not empty. *)
Definition chunks_of (metrics : string) : list string :=
  List.filter (fun c => negb (String.eqb (Py.strip c) EmptyString))
    (Py.split ";" metrics).

Definition parse_metrics (metrics : option string) (pkg uid : string)
    : result (list Sample) :=
  match metrics with
  | None => Ok []
  | Some m =>
      if negb (Py.truthy_str m) then Ok []
      else parse_chunks (chunks_of m) pkg uid []
  end.

(** What a loop body of [collect_processed] leaves: the results list to go
    on with, or the value of a [return]. *)
Inductive flow : Type :=
  | Continue (results : list Sample)
  | Return (value : list Sample).

(** [(start_ms is None or ts >= start_ms) and (end_ms is None or ts <= end_ms)] *)
Definition in_range (start_ms end_ms : option Z) (ts : Z) : bool :=
  match start_ms with None => true | Some lo => lo <=? ts end
  && match end_ms with None => true | Some hi => ts <=? hi end.

(** [flt and value != flt] on an optional filter string. *)
Definition filtered_out (flt : option string) (value : string) : bool :=
  match flt with
  | Some f => Py.truthy_str f && negb (String.eqb value f)
  | None => false
  end.

(** [for rec in parse_metrics(...)] *)
Fixpoint scan_recs (start_ms end_ms : option Z) (limit : Z)
    (recs : list Sample) (results : list Sample) : flow :=
  match recs with
  | [] => Continue results
  | rec :: recs' =>
      let ts := timestramp rec in
      if in_range start_ms end_ms ts then
        let results := (results ++ [rec])%list in
        if limit <=? Z.of_nat (List.length results)
        then Return (Py.sort_reverse timestramp results)
        else scan_recs start_ms end_ms limit recs' results
      else scan_recs start_ms end_ms limit recs' results
  end.

(** [for row in cur] *)
Fixpoint scan_rows (start_ms end_ms : option Z) (limit : Z)
    (package_name uid : option string)
    (rows : list Row) (results : list Sample) : result flow :=
  match rows with
  | [] => Ok (Continue results)
  | row :: rows' =>
      let pkg := PackageName row in
      let uid_row := str (Uid row) in
      if filtered_out package_name pkg
      then scan_rows start_ms end_ms limit package_name uid rows' results
      else if filtered_out uid uid_row
      then scan_rows start_ms end_ms limit package_name uid rows' results
      else
        let* recs := parse_metrics (Metrics row) pkg uid_row in
        match scan_recs start_ms end_ms limit recs results with
        | Continue results =>
            scan_rows start_ms end_ms limit package_name uid rows' results
        | Return value => Ok (Return value)
        end
  end.

(** [for t in TABLES] *)
Fixpoint scan_tables (conn : db_file) (start_ms end_ms : option Z) (limit : Z)
    (package_name uid : option string)
    (tables : list string) (results : list Sample) : result flow :=
  match tables with
  | [] => Ok (Continue results)
  | t :: tables' =>
      let* present := table_exists conn t in
      if negb present
      then scan_tables conn start_ms end_ms limit package_name uid tables' results
      else
        let* cur := select_rows conn t in
        let* f := scan_rows start_ms end_ms limit package_name uid cur results in
        match f with
        | Continue results =>
            scan_tables conn start_ms end_ms limit package_name uid tables' results
        | Return value => Ok (Return value)
        end
  end.

Definition collect_processed (fs : storage) (start_ms end_ms : option Z)
    (limit : Z) (package_name uid : option string) : result (list Sample) :=
  let* conn := connect fs in
  let* f := scan_tables conn start_ms end_ms limit package_name uid TABLES [] in
  match f with
  | Continue results => Ok (Py.sort_reverse timestramp results)
  | Return value => Ok value
  end.

(** [GET /processes] *)
Definition processes (fs : storage) (start_ms end_ms : Z)
    (package_name uid : option string) (limit : Z) : result (list Sample) :=
  if end_ms <? start_ms
  then Raise (HTTPException 400 "start_ms deve ser <= end_ms")
  else collect_processed fs (Some start_ms) (Some end_ms) limit package_name uid.

(** [GET /processes-latest] *)
Definition processes_latest (fs : storage) (limit : Z)
    (package_name uid : option string) : result (list Sample) :=
  let* items := collect_processed fs None None limit package_name uid in
  match items with
  | [] => Raise (HTTPException 404 "Nenhum registro encontrado em data/live.sqlite")
  | _ => Ok items
  end.

(** ** Routes/uploadDb_routes.py *)

(** The content of the response of [POST /upload-db]. *)
Record upload_response : Type := {
  saved_as : string;
  count : nat;
  results : list Sample
}.

(** [POST /upload-db]: the storage after the call and what the call
    returns. [data] is what the uploaded bytes are as a database file. *)
Definition upload_db (fs : storage) (filename : string) (data : db_file)
    (start_ms end_ms : option Z) (package_name uid : option string) (limit : Z)
    : storage * result upload_response :=
  if negb (Py.endswith_any (Py.lower filename) [".sqlite"; ".db"; ".sql"])
  then (fs, Raise (HTTPException 400 "Envie um arquivo SQLite (.sqlite ou .db)"))
  else
    let fs := Some data in
    (fs,
     let* items := collect_processed fs start_ms end_ms limit package_name uid in
     Ok {| saved_as := DB_PATH; count := List.length items; results := items |}).


(** ** Notions the statements use *)

(** Equality of two floats as Python compares them, [x == y], or the very
    same float (a NaN compares unequal to itself). The two zeros are
    equal. *)
Definition float_equal (x y : Py.float) : Prop :=
  x = y \/ Py.float_eqb x y = true.

(** The derivation law of [cpu_usage] on the code: [usage], [dcpu] and
    [cpu] are the three sub-fields as parsed ([None] when absent), [out]
    is the value in the sample. The division is taken when [usage] is
    present and not zero. *)
Definition cpu_usage_law (usage dcpu : option Z) (cpu : option Py.float)
    (out : Py.float) : Prop :=
  match cpu with
  | Some c => float_equal out c
  | None =>
      match usage, dcpu with
      | Some u, Some d =>
          if u =? 0 then out = Py.float_zero
          else exists x y,
            Py.float_of_int d = Ok x /\ Py.float_of_int u = Ok y
            /\ float_equal out (SFdiv Py.prec Py.emax x y)
      | _, _ => out = Py.float_zero
      end
  end.

(** The law in the words of the specification: the division is taken
    when [usage] is present and positive, and [0.0] is the value
    otherwise. *)
Definition cpu_usage_law_stated (usage dcpu : option Z) (cpu : option Py.float)
    (out : Py.float) : Prop :=
  match cpu with
  | Some c => float_equal out c
  | None =>
      match usage, dcpu with
      | Some u, Some d =>
          if 0 <? u then
            exists x y,
              Py.float_of_int d = Ok x /\ Py.float_of_int u = Ok y
              /\ float_equal out (SFdiv Py.prec Py.emax x y)
          else out = Py.float_zero
      | _, _ => out = Py.float_zero
      end
  end.

(** The rows of a database in the order [collect_processed] scans them:
    the tables of [names] that exist, one after the other. *)
Definition scan_order (tables : gmap string (list Row)) (names : list string)
    : list Row :=
  concat (List.map (fun t => default [] (tables !! t)) names).

(** The samples of [rows] that pass the filters, in scan order: every
    sample the collector would append if it had no cap. *)
Fixpoint matching_samples (start_ms end_ms : option Z)
    (package_name uid : option string) (rows : list Row)
    : result (list Sample) :=
  match rows with
  | [] => Ok []
  | row :: rows' =>
      if filtered_out package_name (PackageName row)
         || filtered_out uid (str (Uid row))
      then matching_samples start_ms end_ms package_name uid rows'
      else
        let* recs := parse_metrics (Metrics row) (PackageName row) (str (Uid row)) in
        let* rest := matching_samples start_ms end_ms package_name uid rows' in
        Ok (List.filter (fun rec => in_range start_ms end_ms (timestramp rec)) recs
            ++ rest)%list
  end.

(** A list of samples in descending order of timestamp: no sample is
    followed, anywhere later, by one of a greater timestamp. *)
Definition descending (l : list Sample) : Prop :=
  StronglySorted (fun a b => timestramp b <= timestramp a) l.

(** A row whose [Metrics] column is [NULL] or the empty string. *)
Definition no_metrics (row : Row) : bool :=
  match Metrics row with
  | None => true
  | Some m => String.eqb m EmptyString
  end.

(** A property of every sample a loop leaves, whichever way it ends. *)
Definition flow_Forall (P : Sample -> Prop) (f : flow) : Prop :=
  match f with
  | Continue results => Forall P results
  | Return value => Forall P value
  end.

(** What the loops leave when the samples [all] have been appended to
    the results, under a cap of at least one that was not reached
    before: the first [limit] of them sorted, or all of them to go on
    with. *)
Definition capped (limit : Z) (all : list Sample) : flow :=
  if limit <=? Z.of_nat (List.length all)
  then Return (Py.sort_reverse timestramp (take (Z.to_nat limit) all))
  else Continue all.

(** ** Data for the examples *)

Definition example_row (pkg : string) (uid : Z) (metrics : string) : Row :=
  {| PackageName := pkg; Uid := SqlInteger uid; Pids := SqlNull;
     Metrics := Some metrics |}.

(** Three rows giving the timestamps 5, 3 and 9: the two a scan reaches
    under a cap of two, and the one it does not. *)
Definition example_scanned : list Row :=
  [example_row "com.a" 10 "5:1:1:0.5:0:0"; example_row "com.b" 11 "3:1:1:0.5:0:0"].

Definition example_unscanned : list Row :=
  [example_row "com.a" 10 "9:1:1:0.5:0:0"].

(** A database of one table with these rows. *)
Definition example_tables : gmap string (list Row) :=
  {[ "processes1" := (example_scanned ++ example_unscanned)%list ]}.

Definition example_db : storage := Some (SqliteFile example_tables).

(** The sample of a chunk [ts:1:1:0.5:0:0]. *)
Definition example_sample (pkg : string) (uid : string) (ts : Z) : Sample :=
  {| timestramp := ts; uid := uid; package_name := pkg;
     usage_time := 1; delta_cpu_time := 1;
     cpu_usage := S754_finite false 4503599627370496 (-53);
     rx_data := 0; tx_data := 0 |}.

Definition sample_5 : Sample := example_sample "com.a" "10" 5.
Definition sample_3 : Sample := example_sample "com.b" "11" 3.
Definition sample_9 : Sample := example_sample "com.a" "10" 9.

(** A row without metrics, and the table with it in the middle. *)
Definition null_row : Row :=
  {| PackageName := "com.c"; Uid := SqlInteger 12; Pids := SqlNull;
     Metrics := None |}.

Definition example_tables_with_null : gmap string (list Row) :=
  {[ "processes1" := (example_scanned ++ null_row :: example_unscanned)%list ]}.

(** A chunk whose [usage_time] is negative, and the sample it decodes to:
    [cpu_usage] is [2 / -5], the float nearest to [-0.4]. *)
Definition negative_usage_blob : string := "1000:-5:2::10:20".

Definition negative_usage_sample : Sample :=
  {| timestramp := 1000; uid := "10"; package_name := "com.a";
     usage_time := -5; delta_cpu_time := 2;
     cpu_usage := S754_finite true 7205759403792794 (-54);
     rx_data := 10; tx_data := 20 |}.

(** A decimal numeral of 401 digits, [10^400]. *)
Definition huge_numeral : string := Py.str_of_int (10 ^ 400).

(** Blobs whose [delta_cpu_time] is [10^400], beyond the floats: one with
    a timestamp, an empty [cpu_usage] and an [rx_data] that is no numeral,
    one of a chunk without a timestamp. *)
Definition overflow_blob : string :=
  "1000:1:" ++ huge_numeral ++ "::x:0".

Definition overflow_blob_no_timestamp : string :=
  ":1:" ++ huge_numeral.

(** [example_scanned] followed by a row whose decoding raises. *)
Definition example_tables_then_overflow : gmap string (list Row) :=
  {[ "processes1" :=
       (example_scanned ++ [example_row "com.a" 10 overflow_blob])%list ]}.
(** ** Notions and data of the further properties *)

(** A chunk whose timestamp sub-field parses. *)
Definition has_timestamp (chunk : string) : bool :=
  match geti (Py.split ":" chunk) 0 with
  | Ok (Some _) => true
  | _ => false
  end.

(** A blob of two chunks with a timestamp around one without, and empty
    chunks. *)
Definition mixed_blob : string := ";7:1:1:0.5:0:0;:1:1;;9:1:1:0.5:0:0;".

(** A chunk of six sub-fields. *)
Definition full_chunk : string := "1000:5:2:0.4:10:20".

(** [example_tables] with a table the collector does not know. *)
Definition example_tables_with_other : gmap string (list Row) :=
  <["processes9" := [example_row "com.z" 99 "1:1:1:0.5:0:0"]]> example_tables.

(** The rows that pass the package and uid tests of the collector. *)
Definition row_selected (pkg_filter uid_filter : option string) (row : Row) : bool :=
  negb (filtered_out pkg_filter (PackageName row))
  && negb (filtered_out uid_filter (str (Uid row))).

(** A row of another package whose metrics do not decode. *)
Definition overflow_row : Row := example_row "com.x" 13 overflow_blob.

Definition example_tables_with_overflow_row : gmap string (list Row) :=
  {[ "processes1" := (overflow_row :: example_scanned ++ example_unscanned)%list ]}.

(** ** The built-ins raise nothing but [ValueError] *)

Lemma int_raises_ValueError (v : string) (e : exn) :
  Py.int v = Raise e -> e = ValueError.
Proof.
  unfold Py.int. destruct (Py.scan_sign (Py.strip v)) as [neg body].
  destruct (Py.scan_digits body false 0 0) as [[[z n] rest]|]; [|congruence].
  destruct rest; [|congruence].
  destruct (n =? 0)%nat; [congruence|].
  destruct (Py.int_max_str_digits <? n)%nat; congruence.
Qed.

Lemma float_of_str_raises_ValueError (v : string) (e : exn) :
  Py.float_of_str v = Raise e -> e = ValueError.
Proof.
  unfold Py.float_of_str. intros H.
  repeat case_match; congruence.
Qed.

(** [geti] and [getf] return: a sub-field that is missing, empty or not a
    numeral is [None], and no exception leaves them. *)
Lemma geti_returns (parts : list string) (i : nat) :
  exists o, geti parts i = Ok o.
Proof.
  unfold geti, Py.getitem. destruct (parts !! i) as [v|]; simpl; [|eauto].
  destruct (String.eqb v EmptyString); simpl; [eauto|].
  destruct (Py.int v) as [z|e] eqn:E; simpl; [eauto|].
  apply int_raises_ValueError in E. subst e. simpl. eauto.
Qed.

Lemma getf_returns (parts : list string) (i : nat) :
  exists o, getf parts i = Ok o.
Proof.
  unfold getf, Py.getitem. destruct (parts !! i) as [v|]; simpl; [|eauto].
  destruct (String.eqb v EmptyString); simpl; [eauto|].
  destruct (Py.float_of_str v) as [z|e] eqn:E; simpl; [eauto|].
  apply float_of_str_raises_ValueError in E. subst e. simpl. eauto.
Qed.

(** The three ways a sub-field is absent. *)
Lemma geti_out_of_range (parts : list string) (i : nat) :
  (List.length parts <= i)%nat -> geti parts i = Ok None.
Proof.
  intros H. unfold geti, Py.getitem.
  rewrite (lookup_ge_None_2 parts i) by exact H. reflexivity.
Qed.

Lemma geti_empty (parts : list string) (i : nat) :
  parts !! i = Some EmptyString -> geti parts i = Ok None.
Proof. intros H. unfold geti, Py.getitem. rewrite H. reflexivity. Qed.

Lemma geti_unparsable (parts : list string) (i : nat) (v : string) :
  parts !! i = Some v -> Py.int v = Raise ValueError -> geti parts i = Ok None.
Proof.
  intros H E. unfold geti, Py.getitem. rewrite H. simpl.
  destruct (String.eqb v EmptyString); [reflexivity|]. rewrite E. reflexivity.
Qed.

Lemma geti_parsed (parts : list string) (i : nat) (v : string) (z : Z) :
  parts !! i = Some v -> v <> EmptyString -> Py.int v = Ok z ->
  geti parts i = Ok (Some z).
Proof.
  intros H Hv E. unfold geti, Py.getitem. rewrite H. simpl.
  destruct (String.eqb_spec v EmptyString); [contradiction|]. rewrite E. reflexivity.
Qed.

(** ** The chunk decoder, with the indices of [METRICS_INDEX] resolved *)

Lemma parse_chunk_unfold (chunk pkg uid : string) :
  parse_chunk chunk pkg uid =
  let parts := Py.split ":" chunk in
  let* ts := geti parts 0 in
  let* usage := geti parts 1 in
  let* dcpu := geti parts 2 in
  let* cpu := getf parts 3 in
  let* rx := geti parts 4 in
  let* tx := geti parts 5 in
  let* cpu :=
    (if negb (bool_decide (is_Some cpu)) && Py.truthy_opt_int usage
        && Py.ne_opt_int usage 0 && bool_decide (is_Some dcpu)
     then
       let* x := Py.float_of_opt_int dcpu in
       let* y := Py.float_of_opt_int usage in
       let* q := Py.truediv x y in
       Ok (Some q)
     else Ok cpu) in
  match ts with
  | None => Ok None
  | Some ts =>
      Ok (Some {|
        timestramp := ts;
        uid := uid;
        package_name := pkg;
        usage_time := Py.or_int usage 0;
        delta_cpu_time := Py.or_int dcpu 0;
        cpu_usage := Py.or_float cpu Py.float_zero;
        rx_data := Py.or_int rx 0;
        tx_data := Py.or_int tx 0
      |})
  end.
Proof. reflexivity. Qed.

(** [cpu or 0.0] is [cpu] up to the sign of a zero. *)
Lemma or_float_equal (q : Py.float) :
  float_equal (Py.or_float (Some q) Py.float_zero) q.
Proof.
  destruct q as [b| | |]; simpl; try (left; reflexivity).
  right. reflexivity.
Qed.

(** What a chunk that gives a sample gives: every field of the sample
    from the sub-fields as [geti] and [getf] parsed them. *)
Lemma parse_chunk_sample (chunk pkg uid_row : string) (s : Sample) :
  parse_chunk chunk pkg uid_row = Ok (Some s) ->
  let parts := Py.split ":" chunk in
  exists ts usage dcpu cpu rx tx,
    geti parts 0 = Ok (Some ts) /\ geti parts 1 = Ok usage
    /\ geti parts 2 = Ok dcpu /\ getf parts 3 = Ok cpu
    /\ geti parts 4 = Ok rx /\ geti parts 5 = Ok tx
    /\ timestramp s = ts
    /\ uid s = uid_row
    /\ package_name s = pkg
    /\ usage_time s = Py.or_int usage 0
    /\ delta_cpu_time s = Py.or_int dcpu 0
    /\ cpu_usage_law usage dcpu cpu (cpu_usage s)
    /\ rx_data s = Py.or_int rx 0
    /\ tx_data s = Py.or_int tx 0.
Proof.
  rewrite parse_chunk_unfold. cbv zeta.
  destruct (geti_returns (Py.split ":" chunk) 0) as [ts Hts].
  destruct (geti_returns (Py.split ":" chunk) 1) as [usage Husage].
  destruct (geti_returns (Py.split ":" chunk) 2) as [dcpu Hdcpu].
  destruct (getf_returns (Py.split ":" chunk) 3) as [cpu Hcpu].
  destruct (geti_returns (Py.split ":" chunk) 4) as [rx Hrx].
  destruct (geti_returns (Py.split ":" chunk) 5) as [tx Htx].
  rewrite Hts, Husage, Hdcpu, Hcpu, Hrx, Htx. simpl.
  intros H.
  assert (Hlaw : forall out,
    (if negb (bool_decide (is_Some cpu)) && Py.truthy_opt_int usage
        && Py.ne_opt_int usage 0 && bool_decide (is_Some dcpu)
     then
       let* x := Py.float_of_opt_int dcpu in
       let* y := Py.float_of_opt_int usage in
       let* q := Py.truediv x y in
       Ok (Some q)
     else Ok cpu) = Ok out ->
    cpu_usage_law usage dcpu cpu (Py.or_float out Py.float_zero)).
  { intros out. unfold cpu_usage_law.
    destruct cpu as [c|]; simpl.
    - intros [= <-]. apply or_float_equal.
    - destruct usage as [u|]; simpl; [|intros [= <-]; reflexivity].
      destruct (u =? 0); simpl; [intros [= <-]; destruct dcpu; reflexivity|].
      destruct dcpu as [d|]; simpl; [|intros [= <-]; reflexivity].
      destruct (Py.float_of_int d) as [x|] eqn:Ex; simpl; [|discriminate].
      destruct (Py.float_of_int u) as [y|] eqn:Ey; simpl; [|discriminate].
      destruct (Py.truediv x y) as [q|] eqn:Eq; simpl; [|discriminate].
      intros [= <-]. exists x, y. split; [reflexivity|]. split; [reflexivity|].
      unfold Py.truediv in Eq. destruct y; inversion Eq; apply or_float_equal. }
  match type of H with
  | bind ?c _ = _ => destruct c as [out|] eqn:Ec; simpl in H; [|discriminate]
  end.
  destruct ts as [ts|]; [|discriminate].
  injection H as <-. simpl.
  exists ts, usage, dcpu, cpu, rx, tx.
  repeat (split; [reflexivity|]).
  split; [apply Hlaw; reflexivity|]. split; reflexivity.
Qed.

(** ** The loop over the chunks *)

(** The loop appends to [out], and every sample it appends is the sample
    of one of the chunks. *)
Lemma parse_chunks_appends (chunks : list string) (pkg uid : string) :
  forall out res,
    parse_chunks chunks pkg uid out = Ok res ->
    exists new,
      res = (out ++ new)%list
      /\ Forall (fun s => exists chunk,
                   In chunk chunks /\ parse_chunk chunk pkg uid = Ok (Some s)) new.
Proof.
  induction chunks as [|chunk chunks IH]; intros out res H; simpl in H.
  - injection H as <-. exists []. rewrite app_nil_r. split; [reflexivity|constructor].
  - destruct (parse_chunk chunk pkg uid) as [[s|]|] eqn:E; simpl in H; [| |discriminate].
    + destruct (IH _ _ H) as [new [-> Hnew]].
      exists (s :: new). rewrite <- app_assoc. split; [reflexivity|].
      constructor.
      * exists chunk. split; [left; reflexivity|exact E].
      * eapply Forall_impl; [exact Hnew|].
        intros s' [c [Hc Hs']]. exists c. split; [right; exact Hc|exact Hs'].
    + destruct (IH _ _ H) as [new [-> Hnew]].
      exists new. split; [reflexivity|].
      eapply Forall_impl; [exact Hnew|].
      intros s' [c [Hc Hs']]. exists c. split; [right; exact Hc|exact Hs'].
Qed.

(** Every sample of [parse_metrics] is the sample of a chunk of the blob. *)
Lemma parse_metrics_samples (metrics : option string) (pkg uid : string)
    (out : list Sample) (s : Sample) :
  parse_metrics metrics pkg uid = Ok out -> In s out ->
  exists m chunk,
    metrics = Some m /\ In chunk (chunks_of m)
    /\ parse_chunk chunk pkg uid = Ok (Some s).
Proof.
  unfold parse_metrics. intros H Hin.
  destruct metrics as [m|]; [|injection H as <-; destruct Hin].
  destruct (negb (Py.truthy_str m)); [injection H as <-; destruct Hin|].
  apply parse_chunks_appends in H. destruct H as [new [-> Hnew]]. simpl in Hin.
  rewrite List.Forall_forall in Hnew. destruct (Hnew _ Hin) as [chunk [Hc Hs]].
  exists m, chunk. auto.
Qed.

(** The samples of a row carry the package and the uid of the row. *)
Lemma parse_metrics_labels (metrics : option string) (pkg uid_row : string)
    (out : list Sample) :
  parse_metrics metrics pkg uid_row = Ok out ->
  Forall (fun s => package_name s = pkg /\ uid s = uid_row) out.
Proof.
  intros H. apply List.Forall_forall. intros s Hin.
  destruct (parse_metrics_samples _ _ _ _ _ H Hin) as [m [chunk [_ [_ Hs]]]].
  apply parse_chunk_sample in Hs. cbv zeta in Hs.
  destruct Hs as (ts & usage & dcpu & cpu & rx & tx & Hs). tauto.
Qed.

(** ** The sort *)

Section SortFacts.
Context {A : Type} (key : A -> Z).

Lemma insert_reverse_perm (x : A) (l : list A) :
  Permutation (Py.insert_reverse key x l) (x :: l).
Proof.
  induction l as [|y l IH]; simpl; [reflexivity|].
  destruct (key y <=? key x); [reflexivity|].
  rewrite IH. apply perm_swap.
Qed.

Lemma sort_reverse_perm (l : list A) : Permutation (Py.sort_reverse key l) l.
Proof.
  induction l as [|x l IH]; simpl; [reflexivity|].
  rewrite insert_reverse_perm. constructor. exact IH.
Qed.

Lemma sort_reverse_length (l : list A) :
  List.length (Py.sort_reverse key l) = List.length l.
Proof. apply Permutation_length, sort_reverse_perm. Qed.

Lemma sort_reverse_Forall (P : A -> Prop) (l : list A) :
  Forall P l -> Forall P (Py.sort_reverse key l).
Proof.
  intros H. eapply Permutation_Forall; [|exact H].
  symmetry. apply sort_reverse_perm.
Qed.

Lemma insert_reverse_sorted (x : A) (l : list A) :
  StronglySorted (fun a b => key b <= key a) l ->
  StronglySorted (fun a b => key b <= key a) (Py.insert_reverse key x l).
Proof.
  induction 1 as [|y l Hl IH Hy]; simpl.
  - constructor; constructor.
  - destruct (Z.leb_spec (key y) (key x)) as [Hle|Hgt].
    + constructor; [constructor; assumption|].
      constructor; [exact Hle|].
      eapply Forall_impl; [exact Hy|]. simpl. intros b Hb. lia.
    + constructor; [exact IH|].
      eapply Permutation_Forall; [symmetry; apply insert_reverse_perm|].
      constructor; [lia|exact Hy].
Qed.

Lemma sort_reverse_sorted (l : list A) :
  StronglySorted (fun a b => key b <= key a) (Py.sort_reverse key l).
Proof.
  induction l as [|x l IH]; simpl; [constructor|].
  apply insert_reverse_sorted, IH.
Qed.

End SortFacts.

(** ** The collector: from the tables to one scan of rows *)

Section Collector.
Context (start_ms end_ms : option Z) (limit : Z) (pkg_filter uid_filter : option string).

#[local] Abbreviation recs_loop := (scan_recs start_ms end_ms limit).
#[local] Abbreviation rows_loop := (scan_rows start_ms end_ms limit pkg_filter uid_filter).
#[local] Abbreviation passes := (fun rec => in_range start_ms end_ms (timestramp rec)).

(** Scanning [pre ++ rest] is scanning [pre] and, unless that returned or
    raised, scanning [rest] from where it stopped. *)
Lemma scan_rows_app (pre rest : list Row) :
  forall results,
    rows_loop (pre ++ rest)%list results =
    match rows_loop pre results with
    | Ok (Continue results') => rows_loop rest results'
    | stopped => stopped
    end.
Proof.
  induction pre as [|row pre IH]; intros results; simpl; [reflexivity|].
  destruct (filtered_out pkg_filter (PackageName row)); [apply IH|].
  destruct (filtered_out uid_filter (str (Uid row))); [apply IH|].
  destruct (parse_metrics _ _ _) as [recs|e]; simpl; [|reflexivity].
  destruct (recs_loop recs results); [apply IH|reflexivity].
Qed.

Lemma scan_tables_rows (tables : gmap string (list Row)) (names : list string) :
  forall results,
    scan_tables (SqliteFile tables) start_ms end_ms limit pkg_filter uid_filter
      names results
    = rows_loop (scan_order tables names) results.
Proof.
  induction names as [|t names IH]; intros results; [reflexivity|].
  unfold scan_order. simpl. fold (scan_order tables names).
  rewrite scan_rows_app.
  destruct (tables !! t) as [rows|] eqn:Et; simpl.
  - destruct (rows_loop rows results) as [[results'|value]|e]; simpl;
      [apply IH|reflexivity|reflexivity].
  - apply IH.
Qed.

Lemma collect_processed_rows (tables : gmap string (list Row)) :
  collect_processed (Some (SqliteFile tables)) start_ms end_ms limit
    pkg_filter uid_filter
  = let* f := rows_loop (scan_order tables TABLES) [] in
    match f with
    | Continue results => Ok (Py.sort_reverse timestramp results)
    | Return value => Ok value
    end.
Proof.
  unfold collect_processed. simpl connect. cbn [bind].
  rewrite scan_tables_rows. reflexivity.
Qed.

(** Without a database file nothing is returned. *)
Lemma collect_processed_Ok (fs : storage) (res : list Sample) :
  collect_processed fs start_ms end_ms limit pkg_filter uid_filter = Ok res ->
  exists tables, fs = Some (SqliteFile tables).
Proof.
  destruct fs as [[tables|]|]; [eauto|discriminate|discriminate].
Qed.

(** *** What holds of every sample collected *)

Lemma scan_recs_Forall (P : Sample -> Prop) (recs : list Sample) :
  Forall (fun rec => passes rec = true -> P rec) recs ->
  forall results, Forall P results -> flow_Forall P (recs_loop recs results).
Proof.
  induction 1 as [|rec recs Hrec _ IH]; intros results Hres; simpl; [exact Hres|].
  destruct (in_range start_ms end_ms (timestramp rec)) eqn:E; [|apply IH, Hres].
  assert (Forall P (results ++ [rec])%list)
    by (apply Forall_app; split; [exact Hres|constructor; [auto|constructor]]).
  destruct (limit <=? _); [|apply IH; assumption].
  simpl. apply sort_reverse_Forall. assumption.
Qed.

Lemma scan_rows_Forall (P : Sample -> Prop) (rows : list Row) :
  (forall row recs,
     In row rows ->
     filtered_out pkg_filter (PackageName row) = false ->
     filtered_out uid_filter (str (Uid row)) = false ->
     parse_metrics (Metrics row) (PackageName row) (str (Uid row)) = Ok recs ->
     Forall (fun rec => passes rec = true -> P rec) recs) ->
  forall results f,
    Forall P results -> rows_loop rows results = Ok f -> flow_Forall P f.
Proof.
  induction rows as [|row rows IH]; intros Hrows results f Hres H; simpl in H.
  - injection H as <-. exact Hres.
  - assert (Hrows' : forall row' recs,
      In row' rows ->
      filtered_out pkg_filter (PackageName row') = false ->
      filtered_out uid_filter (str (Uid row')) = false ->
      parse_metrics (Metrics row') (PackageName row') (str (Uid row')) = Ok recs ->
      Forall (fun rec => passes rec = true -> P rec) recs)
      by (intros; eapply Hrows; eauto; right; assumption).
    destruct (filtered_out pkg_filter (PackageName row)) eqn:Ep; [eapply IH; eauto|].
    destruct (filtered_out uid_filter (str (Uid row))) eqn:Eu; [eapply IH; eauto|].
    destruct (parse_metrics _ _ _) as [recs|e] eqn:Em; simpl in H; [|discriminate].
    pose proof (scan_recs_Forall P recs
                  (Hrows row recs (or_introl eq_refl) Ep Eu Em) results Hres) as Hf.
    destruct (recs_loop recs results) as [results'|value].
    + eapply IH; eauto.
    + injection H as <-. exact Hf.
Qed.

(** *** A [return] in the loops returns a sorted list *)

Lemma scan_recs_Return (recs : list Sample) :
  forall results value,
    recs_loop recs results = Return value -> descending value.
Proof.
  induction recs as [|rec recs IH]; intros results value H; simpl in H; [discriminate|].
  destruct (in_range _ _ _); [|eapply IH; exact H].
  destruct (limit <=? _); [|eapply IH; exact H].
  injection H as <-. apply sort_reverse_sorted.
Qed.

Lemma scan_rows_Return (rows : list Row) :
  forall results value,
    rows_loop rows results = Ok (Return value) -> descending value.
Proof.
  induction rows as [|row rows IH]; intros results value H; simpl in H; [discriminate|].
  destruct (filtered_out pkg_filter (PackageName row)); [eapply IH; exact H|].
  destruct (filtered_out uid_filter (str (Uid row))); [eapply IH; exact H|].
  destruct (parse_metrics _ _ _) as [recs|e]; simpl in H; [|discriminate].
  destruct (recs_loop recs results) as [results'|value'] eqn:E.
  - eapply IH; exact H.
  - injection H as <-. eapply scan_recs_Return; exact E.
Qed.

(** *** The loops against the list of all matching samples *)

Lemma scan_recs_capped (recs : list Sample) :
  1 <= limit ->
  forall results,
    Z.of_nat (List.length results) < limit ->
    recs_loop recs results = capped limit (results ++ List.filter passes recs)%list.
Proof.
  intros Hlimit. induction recs as [|rec recs IH]; intros results Hlen; simpl.
  - rewrite app_nil_r. unfold capped.
    destruct (Z.leb_spec limit (Z.of_nat (List.length results))); [lia|reflexivity].
  - destruct (in_range start_ms end_ms (timestramp rec)); [|apply IH, Hlen].
    destruct (Z.leb_spec limit (Z.of_nat (List.length (results ++ [rec])%list)))
      as [Hge|Hlt].
    + unfold capped. rewrite length_app in Hge. simpl in Hge.
      assert (Hn : Z.to_nat limit = List.length (results ++ [rec])%list)
        by (rewrite length_app; simpl; lia).
      replace (results ++ rec :: List.filter passes recs)%list
        with ((results ++ [rec]) ++ List.filter passes recs)%list
        by (rewrite <- app_assoc; reflexivity).
      destruct (Z.leb_spec limit
        (Z.of_nat (List.length ((results ++ [rec]) ++ List.filter passes recs)%list)))
        as [_|Hbad]; [|rewrite !length_app in Hbad; simpl in Hbad; lia].
      rewrite Hn, take_app_length. reflexivity.
    + rewrite IH by exact Hlt. rewrite <- app_assoc. reflexivity.
Qed.

Lemma capped_app (all more : list Sample) :
  limit <= Z.of_nat (List.length all) -> 0 <= limit ->
  capped limit (all ++ more)%list = capped limit all.
Proof.
  intros Hge Hpos. unfold capped.
  destruct (Z.leb_spec limit (Z.of_nat (List.length all))); [|lia].
  destruct (Z.leb_spec limit (Z.of_nat (List.length (all ++ more)%list)))
    as [_|Hbad]; [|rewrite length_app in Hbad; lia].
  rewrite take_app_le by lia. reflexivity.
Qed.

Lemma scan_rows_capped (rows : list Row) :
  1 <= limit ->
  forall results ms,
    Z.of_nat (List.length results) < limit ->
    matching_samples start_ms end_ms pkg_filter uid_filter rows = Ok ms ->
    rows_loop rows results = Ok (capped limit (results ++ ms)%list).
Proof.
  intros Hlimit. induction rows as [|row rows IH]; intros results ms Hlen Hms;
    simpl in Hms |- *.
  - injection Hms as <-. rewrite app_nil_r. unfold capped.
    destruct (Z.leb_spec limit (Z.of_nat (List.length results))); [lia|reflexivity].
  - destruct (filtered_out pkg_filter (PackageName row)); simpl in Hms; [apply IH; assumption|].
    destruct (filtered_out uid_filter (str (Uid row))); simpl in Hms; [apply IH; assumption|].
    destruct (parse_metrics _ _ _) as [recs|e]; simpl in Hms |- *; [|discriminate].
    destruct (matching_samples _ _ _ _ rows) as [rest|e]; simpl in Hms; [|discriminate].
    injection Hms as <-.
    rewrite scan_recs_capped by assumption.
    rewrite app_assoc.
    unfold capped at 1.
    destruct (Z.leb_spec limit
      (Z.of_nat (List.length (results ++ List.filter passes recs)%list))) as [Hge|Hlt].
    + rewrite capped_app by lia. unfold capped.
      destruct (Z.leb_spec limit
        (Z.of_nat (List.length (results ++ List.filter passes recs)%list))); [|lia].
      reflexivity.
    + apply IH; [exact Hlt|reflexivity].
Qed.


(** *** The cap *)

Lemma capped_length (all : list Sample) :
  0 <= limit ->
  match capped limit all with
  | Continue results => Z.of_nat (List.length results) < limit
  | Return value => Z.of_nat (List.length value) <= limit
  end.
Proof.
  intros Hpos. unfold capped.
  destruct (Z.leb_spec limit (Z.of_nat (List.length all))); [|assumption].
  rewrite sort_reverse_length, length_take. lia.
Qed.

Lemma scan_rows_length (rows : list Row) :
  1 <= limit ->
  forall results f,
    Z.of_nat (List.length results) < limit ->
    rows_loop rows results = Ok f ->
    match f with
    | Continue results' => Z.of_nat (List.length results') < limit
    | Return value => Z.of_nat (List.length value) <= limit
    end.
Proof.
  intros Hlimit. induction rows as [|row rows IH]; intros results f Hlen H; simpl in H.
  - injection H as <-. exact Hlen.
  - destruct (filtered_out pkg_filter (PackageName row)); [eapply IH; eassumption|].
    destruct (filtered_out uid_filter (str (Uid row))); [eapply IH; eassumption|].
    destruct (parse_metrics _ _ _) as [recs|e]; simpl in H; [|discriminate].
    rewrite scan_recs_capped in H by assumption.
    pose proof (capped_length (results ++ List.filter passes recs)%list
                  ltac:(lia)) as Hc.
    destruct (capped limit _) as [results'|value].
    + eapply IH; eassumption.
    + injection H as <-. exact Hc.
Qed.

(** *** Rows without metrics *)

Lemma parse_metrics_no_metrics (row : Row) (pkg uid : string) :
  no_metrics row = true -> parse_metrics (Metrics row) pkg uid = Ok [].
Proof.
  unfold no_metrics. destruct (Metrics row) as [m|]; [|reflexivity].
  intros H. apply String.eqb_eq in H. subst m. reflexivity.
Qed.

Lemma scan_rows_no_metrics (rows : list Row) :
  forall results,
    rows_loop rows results
    = rows_loop (List.filter (fun row => negb (no_metrics row)) rows) results.
Proof.
  induction rows as [|row rows IH]; intros results; [reflexivity|].
  simpl List.filter. destruct (no_metrics row) eqn:E; simpl.
  - destruct (filtered_out pkg_filter (PackageName row)); [apply IH|].
    destruct (filtered_out uid_filter (str (Uid row))); [apply IH|].
    rewrite parse_metrics_no_metrics by exact E. simpl. apply IH.
  - destruct (filtered_out pkg_filter (PackageName row)); [apply IH|].
    destruct (filtered_out uid_filter (str (Uid row))); [apply IH|].
    destruct (parse_metrics _ _ _) as [recs|e]; simpl; [|reflexivity].
    destruct (recs_loop recs results); [apply IH|reflexivity].
Qed.

End Collector.

Lemma scan_order_without (tables : gmap string (list Row)) (t : string)
    (pre post : list Row) (row : Row) (names : list string) :
  tables !! t = Some (pre ++ row :: post)%list -> no_metrics row = true ->
  List.filter (fun r => negb (no_metrics r)) (scan_order tables names)
  = List.filter (fun r => negb (no_metrics r))
      (scan_order (<[t := (pre ++ post)%list]> tables) names).
Proof.
  intros Ht Hrow. induction names as [|n names IH]; [reflexivity|].
  unfold scan_order. simpl. fold (scan_order tables names).
  fold (scan_order (<[t := (pre ++ post)%list]> tables) names).
  rewrite !List.filter_app, IH. f_equal.
  destruct (decide (t = n)) as [->|Hne].
  - rewrite lookup_insert_eq, Ht. simpl.
    rewrite !List.filter_app. simpl. rewrite Hrow. reflexivity.
  - rewrite lookup_insert_ne by exact Hne. reflexivity.
Qed.

(** A filter that is set and not the empty string lets a row through only
    when the value is the filter. *)
Lemma filtered_out_false (flt value : string) :
  flt <> EmptyString -> filtered_out (Some flt) value = false -> value = flt.
Proof.
  intros Hne H. unfold filtered_out, Py.truthy_str in H.
  destruct (String.eqb_spec flt EmptyString); [contradiction|].
  destruct (String.eqb_spec value flt); [assumption|discriminate].
Qed.

Lemma in_range_bounds (start_ms end_ms : option Z) (ts : Z) :
  in_range start_ms end_ms ts = true ->
  (forall lo, start_ms = Some lo -> lo <= ts)
  /\ (forall hi, end_ms = Some hi -> ts <= hi).
Proof.
  unfold in_range. intros H. apply andb_true_iff in H. destruct H as [Hlo Hhi].
  split; intros b ->; lia.
Qed.

(** Every sample collected satisfies what every sample that passed the
    filters satisfies. *)
Lemma collect_processed_Forall (P : Sample -> Prop) (fs : storage)
    (start_ms end_ms : option Z) (limit : Z) (pkg_filter uid_filter : option string)
    (res : list Sample) :
  (forall row recs,
     filtered_out pkg_filter (PackageName row) = false ->
     filtered_out uid_filter (str (Uid row)) = false ->
     parse_metrics (Metrics row) (PackageName row) (str (Uid row)) = Ok recs ->
     Forall (fun rec => in_range start_ms end_ms (timestramp rec) = true -> P rec) recs) ->
  collect_processed fs start_ms end_ms limit pkg_filter uid_filter = Ok res ->
  Forall P res.
Proof.
  intros HP H.
  destruct (collect_processed_Ok _ _ _ _ _ _ _ H) as [tables ->].
  rewrite collect_processed_rows in H.
  destruct (scan_rows _ _ _ _ _ _ _) as [f|e] eqn:E; simpl in H; [|discriminate].
  eapply (scan_rows_Forall _ _ _ _ _ P) in E; [| intros; eapply HP; eassumption | constructor].
  destruct f as [results|value]; injection H as <-; simpl in E.
  - apply sort_reverse_Forall. exact E.
  - exact E.
Qed.

(** ** [float] of an int that is not zero is not zero *)

Lemma digits2_pos_le (m : positive) :
  2 ^ (Zpos (digits2_pos m) - 1) <= Zpos m.
Proof.
  induction m as [m IH|m IH|]; simpl digits2_pos.
  - rewrite Pos2Z.inj_succ.
    replace (Z.succ (Zpos (digits2_pos m)) - 1) with (Z.succ (Zpos (digits2_pos m) - 1)) by lia.
    rewrite Z.pow_succ_r by lia. lia.
  - rewrite Pos2Z.inj_succ.
    replace (Z.succ (Zpos (digits2_pos m)) - 1) with (Z.succ (Zpos (digits2_pos m) - 1)) by lia.
    rewrite Z.pow_succ_r by lia. lia.
  - simpl. lia.
Qed.

Lemma shr_1_m (mrs : shr_record) :
  0 <= shr_m mrs -> shr_m (shr_1 mrs) = shr_m mrs / 2.
Proof.
  destruct mrs as [m r s]. simpl. intros Hm.
  rewrite <- Z.div2_div.
  destruct m as [|[p|p|]|p]; try reflexivity; lia.
Qed.

Lemma pow2_xO (p : positive) : 2 ^ Zpos p~0 = 2 ^ Zpos p * 2 ^ Zpos p.
Proof. rewrite Pos2Z.inj_xO, <- Z.pow_add_r by lia. f_equal. lia. Qed.

Lemma pow2_xI (p : positive) : 2 ^ Zpos p~1 = 2 * (2 ^ Zpos p * 2 ^ Zpos p).
Proof.
  rewrite Pos2Z.inj_xI, <- Z.pow_add_r by lia.
  replace (2 * Zpos p + 1) with (Z.succ (Zpos p + Zpos p)) by lia.
  rewrite Z.pow_succ_r by lia. reflexivity.
Qed.

Lemma iter_shr_1_m (p : positive) :
  forall mrs, 0 <= shr_m mrs ->
    shr_m (SpecFloat.iter_pos shr_1 p mrs) = shr_m mrs / 2 ^ Zpos p.
Proof.
  induction p as [p IH|p IH|]; intros mrs Hm; simpl SpecFloat.iter_pos.
  - assert (H1 : 0 <= shr_m (shr_1 mrs))
      by (rewrite shr_1_m by exact Hm; apply Z.div_pos; lia).
    assert (H2 : 0 <= shr_m (SpecFloat.iter_pos shr_1 p (shr_1 mrs)))
      by (rewrite IH by exact H1; apply Z.div_pos; lia).
    rewrite IH by exact H2. rewrite IH by exact H1. rewrite shr_1_m by exact Hm.
    rewrite pow2_xI, !Z.div_div by lia. reflexivity.
  - assert (H1 : 0 <= shr_m (SpecFloat.iter_pos shr_1 p mrs))
      by (rewrite IH by exact Hm; apply Z.div_pos; lia).
    rewrite IH by exact H1. rewrite IH by exact Hm.
    rewrite pow2_xO, Z.div_div by lia. reflexivity.
  - rewrite shr_1_m by exact Hm. reflexivity.
Qed.

(** Shifting a positive mantissa to its canonical exponent leaves it
    positive, when the exponent is not below the least one. *)
Lemma shr_fexp_pos (m e : Z) (l : location) :
  0 < m -> emin Py.prec Py.emax <= e ->
  0 < shr_m (fst (shr_fexp Py.prec Py.emax m e l))
  /\ emin Py.prec Py.emax <= snd (shr_fexp Py.prec Py.emax m e l).
Proof.
  intros Hm He. unfold shr_fexp, shr.
  assert (Hrec : shr_m (shr_record_of_loc m l) = m)
    by (destruct l as [|[]]; reflexivity).
  destruct (fexp Py.prec Py.emax (Zdigits2 m + e) - e) as [|n|n] eqn:En; simpl;
    try (rewrite Hrec; split; assumption).
  rewrite iter_shr_1_m by (rewrite Hrec; lia). rewrite Hrec.
  destruct m as [|p|p]; try lia. simpl Zdigits2 in En.
  pose proof (digits2_pos_le p) as Hd.
  unfold fexp in En. unfold emin in *. unfold Py.prec, Py.emax in *.
  assert (Hn : Zpos n = Zpos (digits2_pos p) - 53) by lia.
  split; [|lia].
  apply Z.div_str_pos. split; [lia|].
  eapply Z.le_trans; [|exact Hd].
  apply Z.pow_le_mono_r; lia.
Qed.

Lemma round_nearest_even_pos (m : Z) (l : location) :
  0 < m -> 0 < round_nearest_even m l.
Proof.
  intros Hm. destruct l as [|[]]; simpl; try lia.
  destruct (Z.even m); lia.
Qed.

Lemma binary_round_aux_nonzero (s : bool) (m e : Z) (l : location) :
  0 < m -> emin Py.prec Py.emax <= e ->
  Py.truthy_float (binary_round_aux Py.prec Py.emax s m e l) = true.
Proof.
  intros Hm He. unfold binary_round_aux.
  destruct (shr_fexp_pos m e l Hm He) as [H1 H1e].
  destruct (shr_fexp Py.prec Py.emax m e l) as [mrs' e']. simpl in H1, H1e.
  pose proof (round_nearest_even_pos (shr_m mrs') (loc_of_shr_record mrs') H1) as H2.
  destruct (shr_fexp_pos _ e' loc_Exact H2 H1e) as [H3 _].
  destruct (shr_fexp Py.prec Py.emax _ e' loc_Exact) as [mrs'' e'']. simpl in H3.
  destruct (shr_m mrs'') as [|p|p]; try lia.
  destruct (e'' <=? Py.emax - Py.prec); reflexivity.
Qed.

Lemma float_of_int_truthy (z : Z) (x : Py.float) :
  z <> 0 -> Py.float_of_int z = Ok x -> Py.truthy_float x = true.
Proof.
  intros Hz. unfold Py.float_of_int.
  assert (H : Py.truthy_float (binary_normalize Py.prec Py.emax z 0 false) = true).
  { destruct z as [|m|m]; [contradiction| |]; unfold binary_normalize, binary_round.
    - destruct (shl_align m 0 _) as [mz ez] eqn:Ea.
      apply binary_round_aux_nonzero; [lia|].
      unfold shl_align in Ea.
      destruct (fexp Py.prec Py.emax (Zpos (digits2_pos m) + 0) - 0) eqn:Ef;
        injection Ea as <- <-; unfold fexp, emin, Py.prec, Py.emax in *; lia.
    - destruct (shl_align m 0 _) as [mz ez] eqn:Ea.
      apply binary_round_aux_nonzero; [lia|].
      unfold shl_align in Ea.
      destruct (fexp Py.prec Py.emax (Zpos (digits2_pos m) + 0) - 0) eqn:Ef;
        injection Ea as <- <-; unfold fexp, emin, Py.prec, Py.emax in *; lia. }
  destruct (binary_normalize Py.prec Py.emax z 0 false); try discriminate;
    intros [= <-]; exact H.
Qed.

(** ** What the decoder raises *)

Lemma float_of_int_raises_OverflowError (z : Z) (e : exn) :
  Py.float_of_int z = Raise e -> e = OverflowError.
Proof.
  unfold Py.float_of_int.
  destruct (binary_normalize Py.prec Py.emax z 0 false); congruence.
Qed.

(** The division of the derivation never divides by zero. *)
Lemma truediv_of_ints (d u : Z) (x y : Py.float) :
  u <> 0 -> Py.float_of_int u = Ok y -> exists q, Py.truediv x y = Ok q.
Proof.
  intros Hu Hy. apply float_of_int_truthy in Hy; [|exact Hu].
  unfold Py.truediv. destruct y; try discriminate; eauto.
Qed.

(** The one exception that leaves the decoding of a chunk is the
    [OverflowError] of the derivation: [cpu_usage] is absent, [usage_time]
    is present and not zero, [delta_cpu_time] is present, and one of them
    is beyond the floats. *)
Lemma parse_chunk_raises (chunk pkg uid_row : string) (e : exn) :
  parse_chunk chunk pkg uid_row = Raise e ->
  e = OverflowError
  /\ getf (Py.split ":" chunk) 3 = Ok None
  /\ exists u d,
       geti (Py.split ":" chunk) 1 = Ok (Some u) /\ u <> 0
       /\ geti (Py.split ":" chunk) 2 = Ok (Some d)
       /\ (Py.float_of_int d = Raise OverflowError
           \/ Py.float_of_int u = Raise OverflowError).
Proof.
  rewrite parse_chunk_unfold. cbv zeta.
  destruct (geti_returns (Py.split ":" chunk) 0) as [ts Hts].
  destruct (geti_returns (Py.split ":" chunk) 1) as [usage Husage].
  destruct (geti_returns (Py.split ":" chunk) 2) as [dcpu Hdcpu].
  destruct (getf_returns (Py.split ":" chunk) 3) as [cpu Hcpu].
  destruct (geti_returns (Py.split ":" chunk) 4) as [rx Hrx].
  destruct (geti_returns (Py.split ":" chunk) 5) as [tx Htx].
  rewrite Hts, Husage, Hdcpu, Hcpu, Hrx, Htx. simpl.
  destruct cpu as [c|]; simpl; [destruct ts; discriminate|].
  destruct usage as [u|]; simpl; [|destruct ts; discriminate].
  destruct (Z.eqb_spec u 0) as [->|Hu]; simpl; [destruct ts; discriminate|].
  destruct dcpu as [d|]; simpl; [|destruct ts; discriminate].
  destruct (Py.float_of_int d) as [x|ed] eqn:Ed; simpl.
  - destruct (Py.float_of_int u) as [y|eu] eqn:Eu; simpl.
    + destruct (truediv_of_ints d u x y Hu Eu) as [q ->]. simpl.
      destruct ts; discriminate.
    + intros [= <-]. pose proof (float_of_int_raises_OverflowError _ _ Eu) as ->.
      split; [reflexivity|]. split; [reflexivity|]. exists u, d. auto.
  - intros [= <-]. pose proof (float_of_int_raises_OverflowError _ _ Ed) as ->.
    split; [reflexivity|]. split; [reflexivity|]. exists u, d. auto.
Qed.

(** A chunk whose decoding returns gives a sample exactly when its
    timestamp parses. *)
Lemma parse_chunk_returns (chunk pkg uid_row : string) (o : option Sample) :
  parse_chunk chunk pkg uid_row = Ok o ->
  match o with
  | Some s => geti (Py.split ":" chunk) 0 = Ok (Some (timestramp s))
  | None => geti (Py.split ":" chunk) 0 = Ok None
  end.
Proof.
  intros H. destruct o as [s|].
  - apply parse_chunk_sample in H. cbv zeta in H.
    destruct H as (ts & usage & dcpu & cpu & rx & tx & Hts & _ & _ & _ & _ & _ & Hs & _).
    rewrite Hs. exact Hts.
  - revert H. rewrite parse_chunk_unfold. cbv zeta.
    destruct (geti_returns (Py.split ":" chunk) 0) as [ts Hts]. rewrite Hts. simpl.
    destruct ts as [ts|]; [|reflexivity].
    repeat match goal with
           | |- context [bind ?c _] => destruct c; simpl; try discriminate
           end.
Qed.

Lemma parse_chunks_raises (chunks : list string) (pkg uid_row : string) (e : exn) :
  forall out,
    parse_chunks chunks pkg uid_row out = Raise e ->
    exists chunk, In chunk chunks /\ parse_chunk chunk pkg uid_row = Raise e.
Proof.
  induction chunks as [|chunk chunks IH]; intros out H; simpl in H; [discriminate|].
  destruct (parse_chunk chunk pkg uid_row) as [[s|]|e'] eqn:E; simpl in H.
  - destruct (IH _ H) as [c [Hc Hr]]. exists c. split; [right; exact Hc|exact Hr].
  - destruct (IH _ H) as [c [Hc Hr]]. exists c. split; [right; exact Hc|exact Hr].
  - injection H as <-. exists chunk. split; [left; reflexivity|exact E].
Qed.

(** [parse_metrics] raises nothing but the [OverflowError] of one of its
    chunks. *)
Lemma parse_metrics_raises (metrics : option string) (pkg uid_row : string) (e : exn) :
  parse_metrics metrics pkg uid_row = Raise e ->
  e = OverflowError
  /\ exists m chunk,
       metrics = Some m /\ In chunk (chunks_of m)
       /\ parse_chunk chunk pkg uid_row = Raise OverflowError.
Proof.
  unfold parse_metrics. intros H.
  destruct metrics as [m|]; [|discriminate].
  destruct (negb (Py.truthy_str m)); [discriminate|].
  apply parse_chunks_raises in H. destruct H as [chunk [Hc Hr]].
  destruct (parse_chunk_raises _ _ _ _ Hr) as [-> _].
  split; [reflexivity|]. exists m, chunk. auto.
Qed.

(** ** The full scan *)

(** When every row decodes and the matching samples stay below the cap,
    [collect_processed] returns all of them, sorted. *)
Lemma collect_processed_full_scan (tables : gmap string (list Row))
    (start_ms end_ms : option Z) (limit : Z) (pkg_filter uid_filter : option string)
    (ms : list Sample) :
  1 <= limit ->
  matching_samples start_ms end_ms pkg_filter uid_filter (scan_order tables TABLES)
  = Ok ms ->
  Z.of_nat (List.length ms) < limit ->
  collect_processed (Some (SqliteFile tables)) start_ms end_ms limit
    pkg_filter uid_filter
  = Ok (Py.sort_reverse timestramp ms).
Proof.
  intros Hlimit Hms Hlen.
  rewrite collect_processed_rows.
  rewrite (scan_rows_capped _ _ _ _ _ _ Hlimit [] ms) by (simpl; lia || exact Hms).
  simpl. unfold capped.
  destruct (Z.leb_spec limit (Z.of_nat (List.length ms))); [lia|reflexivity].
Qed.

(** What [collect_processed] raises: the refusal of [connect], the error of
    a file that is no database, or the [OverflowError] of the decoder. *)
Lemma scan_rows_raises (start_ms end_ms : option Z) (limit : Z)
    (pkg_filter uid_filter : option string) (rows : list Row) (e : exn) :
  forall results,
    scan_rows start_ms end_ms limit pkg_filter uid_filter rows results = Raise e ->
    e = OverflowError.
Proof.
  induction rows as [|row rows IH]; intros results H; simpl in H; [discriminate|].
  destruct (filtered_out pkg_filter (PackageName row)); [eapply IH; exact H|].
  destruct (filtered_out uid_filter (str (Uid row))); [eapply IH; exact H|].
  destruct (parse_metrics _ _ _) as [recs|e'] eqn:E; simpl in H.
  - destruct (scan_recs _ _ _ recs results); [eapply IH; exact H|discriminate].
  - injection H as <-. apply parse_metrics_raises in E. tauto.
Qed.

Lemma collect_processed_raises (fs : storage) (start_ms end_ms : option Z)
    (limit : Z) (pkg_filter uid_filter : option string) (e : exn) :
  collect_processed fs start_ms end_ms limit pkg_filter uid_filter = Raise e ->
  (fs = None /\ e = HTTPException 400 "Nenhum banco enviado. Use / (upload).")
  \/ (fs = Some NotADatabase /\ e = DatabaseError)
  \/ e = OverflowError.
Proof.
  destruct fs as [[tables|]|].
  - rewrite collect_processed_rows.
    destruct (scan_rows _ _ _ _ _ _ _) as [[results|value]|e'] eqn:E; simpl;
      try discriminate.
    intros [= <-]. right. right. eapply scan_rows_raises. exact E.
  - intros [= <-]. right. left. auto.
  - intros [= <-]. left. auto.
Qed.

(** ** The decoder: dropped and emitted chunks *)

(** A chunk without a timestamp gives no sample. *)
Lemma parse_chunk_dropped (chunk pkg uid : string) (s : Sample) :
  geti (Py.split ":" chunk) 0 = Ok None ->
  parse_chunk chunk pkg uid <> Ok (Some s).
Proof.
  intros Hts H. apply parse_chunk_sample in H. cbv zeta in H.
  destruct H as (ts & _ & _ & _ & _ & _ & H & _). congruence.
Qed.

(** A chunk with a timestamp and a [cpu_usage] sub-field that parses gives
    its sample, whatever the other sub-fields are. *)
Lemma parse_chunk_emitted (chunk pkg uid : string) (ts : Z) (c : Py.float) :
  geti (Py.split ":" chunk) 0 = Ok (Some ts) ->
  getf (Py.split ":" chunk) 3 = Ok (Some c) ->
  exists s, parse_chunk chunk pkg uid = Ok (Some s)
            /\ timestramp s = ts /\ float_equal (cpu_usage s) c.
Proof.
  intros Hts Hcpu. rewrite parse_chunk_unfold. cbv zeta.
  destruct (geti_returns (Py.split ":" chunk) 1) as [usage Husage].
  destruct (geti_returns (Py.split ":" chunk) 2) as [dcpu Hdcpu].
  destruct (geti_returns (Py.split ":" chunk) 4) as [rx Hrx].
  destruct (geti_returns (Py.split ":" chunk) 5) as [tx Htx].
  rewrite Hts, Husage, Hdcpu, Hcpu, Hrx, Htx. simpl.
  eexists. split; [reflexivity|]. simpl. split; [reflexivity|].
  apply or_float_equal.
Qed.

(** The examples of the specification. *)
Example decode_example_1 :
  parse_metrics (Some "1000:5:2:0.4:10:20") "com.a" "10"
  = Ok [{| timestramp := 1000; uid := "10"; package_name := "com.a";
           usage_time := 5; delta_cpu_time := 2;
           cpu_usage := S754_finite false 7205759403792794 (-54);
           rx_data := 10; tx_data := 20 |}].
Proof. vm_compute. reflexivity. Qed.

Example decode_example_2 :
  parse_metrics (Some "1000:5:2::10:20") "com.a" "10"
  = parse_metrics (Some "1000:5:2:0.4:10:20") "com.a" "10".
Proof. vm_compute. reflexivity. Qed.

Example decode_example_3 :
  parse_metrics (Some "1000:0:2::10:20") "com.a" "10"
  = Ok [{| timestramp := 1000; uid := "10"; package_name := "com.a";
           usage_time := 0; delta_cpu_time := 2;
           cpu_usage := Py.float_zero;
           rx_data := 10; tx_data := 20 |}].
Proof. vm_compute. reflexivity. Qed.

Example decode_example_4 :
  parse_metrics (Some ";;1000:1:1:0.1:0:0;") "com.a" "10"
  = Ok [{| timestramp := 1000; uid := "10"; package_name := "com.a";
           usage_time := 1; delta_cpu_time := 1;
           cpu_usage := S754_finite false 7205759403792794 (-56);
           rx_data := 0; tx_data := 0 |}].
Proof. vm_compute. reflexivity. Qed.

Example decode_example_5 :
  parse_metrics (Some ":1:1:0.1:0:0") "com.a" "10" = Ok [].
Proof. vm_compute. reflexivity. Qed.

(** ** The routes *)

(** [GET /processes] refuses a reversed range whatever the storage holds:
    nothing is opened, scanned or decoded. *)
Lemma processes_rejects_reversed_range (fs : storage) (start_ms end_ms : Z)
    (pkg_filter uid_filter : option string) (limit : Z) :
  end_ms < start_ms ->
  processes fs start_ms end_ms pkg_filter uid_filter limit
  = Raise (HTTPException 400 "start_ms deve ser <= end_ms").
Proof.
  intros H. unfold processes.
  destruct (Z.ltb_spec end_ms start_ms); [reflexivity|lia].
Qed.

(** ** The claims *)

(** C1 (as amended). Every sample the decoder returns comes from a chunk
    of the blob, and its [cpu_usage] follows the derivation law on the
    sub-fields of that chunk: the raw [cpu_usage] when it parses; else
    [delta_cpu_time / usage_time] when both are present and [usage_time]
    is not zero, of either sign; else [0.0]. A [usage_time] that is present
    and zero takes no division. *)
Theorem cpu_usage_derivation (m pkg uid : string) (out : list Sample) (s : Sample) :
  parse_metrics (Some m) pkg uid = Ok out -> In s out ->
  exists chunk usage dcpu cpu,
    In chunk (chunks_of m)
    /\ parse_chunk chunk pkg uid = Ok (Some s)
    /\ geti (Py.split ":" chunk) 1 = Ok usage
    /\ geti (Py.split ":" chunk) 2 = Ok dcpu
    /\ getf (Py.split ":" chunk) 3 = Ok cpu
    /\ cpu_usage_law usage dcpu cpu (cpu_usage s).
Proof.
  intros H Hin.
  destruct (parse_metrics_samples _ _ _ _ _ H Hin) as (m' & chunk & [= <-] & Hc & Hs).
  pose proof (parse_chunk_sample _ _ _ _ Hs) as Hf. cbv zeta in Hf.
  destruct Hf as (ts & usage & dcpu & cpu & rx & tx & Hf).
  exists chunk, usage, dcpu, cpu. tauto.
Qed.

Lemma cpu_usage_derivation_witness :
  exists chunk usage dcpu cpu,
    In chunk (chunks_of negative_usage_blob)
    /\ parse_chunk chunk "com.a" "10" = Ok (Some negative_usage_sample)
    /\ geti (Py.split ":" chunk) 1 = Ok usage
    /\ geti (Py.split ":" chunk) 2 = Ok dcpu
    /\ getf (Py.split ":" chunk) 3 = Ok cpu
    /\ cpu_usage_law usage dcpu cpu (cpu_usage negative_usage_sample).
Proof.
  apply (cpu_usage_derivation negative_usage_blob "com.a" "10"
           [negative_usage_sample] negative_usage_sample).
  - vm_compute. reflexivity.
  - left. reflexivity.
Defined.

(** C1 (as stated) fails: with [usage_time = -5] and [delta_cpu_time = 2]
    the decoder divides and returns [-0.4], where the law as stated, which
    divides for a positive [usage_time] only, gives [0.0]. *)
Lemma cpu_usage_law_stated_fails :
  ~ (forall (m pkg uid : string) (out : list Sample) (s : Sample),
       parse_metrics (Some m) pkg uid = Ok out -> In s out ->
       exists chunk usage dcpu cpu,
         In chunk (chunks_of m)
         /\ parse_chunk chunk pkg uid = Ok (Some s)
         /\ geti (Py.split ":" chunk) 1 = Ok usage
         /\ geti (Py.split ":" chunk) 2 = Ok dcpu
         /\ getf (Py.split ":" chunk) 3 = Ok cpu
         /\ cpu_usage_law_stated usage dcpu cpu (cpu_usage s)).
Proof.
  intros H.
  destruct (H negative_usage_blob "com.a" "10" [negative_usage_sample]
              negative_usage_sample eq_refl (or_introl eq_refl))
    as (chunk & usage & dcpu & cpu & Hc & _ & Hu & Hd & Hf & Hlaw).
  vm_compute in Hc. destruct Hc as [<-|[]].
  vm_compute in Hu, Hd, Hf.
  injection Hu as <-. injection Hd as <-. injection Hf as <-.
  simpl in Hlaw. discriminate.
Qed.

(** C2. Once the matching samples of the rows scanned so far reach the
    cap, [collect_processed] returns the first [limit] of them, in scan
    order, sorted by timestamp descending, whatever rows and tables come
    after, which are not examined: the result is the same for every
    database whose scan order starts with the rows scanned. *)
Theorem collect_processed_early_exit (tables : gmap string (list Row))
    (start_ms end_ms : option Z) (limit : Z) (pkg_filter uid_filter : option string)
    (scanned unscanned : list Row) (ms : list Sample) :
  1 <= limit ->
  scan_order tables TABLES = (scanned ++ unscanned)%list ->
  matching_samples start_ms end_ms pkg_filter uid_filter scanned = Ok ms ->
  limit <= Z.of_nat (List.length ms) ->
  collect_processed (Some (SqliteFile tables)) start_ms end_ms limit
    pkg_filter uid_filter
  = Ok (Py.sort_reverse timestramp (take (Z.to_nat limit) ms))
  /\ descending (Py.sort_reverse timestramp (take (Z.to_nat limit) ms))
  /\ Permutation (Py.sort_reverse timestramp (take (Z.to_nat limit) ms))
       (take (Z.to_nat limit) ms).
Proof.
  intros Hlimit Horder Hms Hcap. split; [|split].
  - rewrite collect_processed_rows, Horder, scan_rows_app.
    rewrite (scan_rows_capped _ _ _ _ _ scanned Hlimit [] ms) by (simpl; lia || exact Hms).
    simpl. unfold capped.
    destruct (Z.leb_spec limit (Z.of_nat (List.length ms))); [reflexivity|lia].
  - apply sort_reverse_sorted.
  - apply sort_reverse_perm.
Qed.

(** Rows giving the timestamps 5, 3 and 9 under a cap of two: the result
    is [5; 3], and the row of timestamp 9 is not scanned. *)
Lemma collect_processed_early_exit_witness :
  collect_processed example_db None None 2 None None = Ok [sample_5; sample_3]
  /\ descending [sample_5; sample_3]
  /\ Permutation [sample_5; sample_3] [sample_5; sample_3].
Proof.
  apply (collect_processed_early_exit example_tables None None 2 None None
           example_scanned example_unscanned [sample_5; sample_3]).
  - lia.
  - vm_compute. reflexivity.
  - vm_compute. reflexivity.
  - simpl. lia.
Defined.

(** C3. Under a cap of at least one, the list [collect_processed] returns
    is no longer than the cap. *)
Theorem collect_processed_cap (fs : storage) (start_ms end_ms : option Z)
    (limit : Z) (pkg_filter uid_filter : option string) (res : list Sample) :
  1 <= limit ->
  collect_processed fs start_ms end_ms limit pkg_filter uid_filter = Ok res ->
  Z.of_nat (List.length res) <= limit.
Proof.
  intros Hlimit H.
  destruct (collect_processed_Ok _ _ _ _ _ _ _ H) as [tables ->].
  rewrite collect_processed_rows in H.
  destruct (scan_rows _ _ _ _ _ _ _) as [f|e] eqn:E; simpl in H; [|discriminate].
  apply scan_rows_length in E; [|exact Hlimit|simpl; lia].
  destruct f as [results|value]; injection H as <-.
  - rewrite sort_reverse_length. lia.
  - exact E.
Qed.

Lemma collect_processed_cap_witness :
  Z.of_nat (List.length [sample_5; sample_3]) <= 2.
Proof.
  apply (collect_processed_cap example_db None None 2 None None).
  - lia.
  - vm_compute. reflexivity.
Defined.

(** C4. Every sample [collect_processed] returns lies within the bounds
    that were supplied, both inclusive. *)
Theorem collect_processed_in_range (fs : storage) (start_ms end_ms : option Z)
    (limit : Z) (pkg_filter uid_filter : option string) (res : list Sample)
    (s : Sample) :
  collect_processed fs start_ms end_ms limit pkg_filter uid_filter = Ok res ->
  In s res ->
  (forall lo, start_ms = Some lo -> lo <= timestramp s)
  /\ (forall hi, end_ms = Some hi -> timestramp s <= hi).
Proof.
  intros H Hin. apply in_range_bounds.
  eapply (collect_processed_Forall
            (fun s => in_range start_ms end_ms (timestramp s) = true)) in H.
  - rewrite List.Forall_forall in H. apply H, Hin.
  - intros row recs _ _ _. apply List.Forall_forall. auto.
Qed.

Lemma collect_processed_in_range_witness :
  (forall lo, Some 4 = Some lo -> lo <= timestramp sample_9)
  /\ (forall hi, Some 9 = Some hi -> timestramp sample_9 <= hi).
Proof.
  apply (collect_processed_in_range example_db (Some 4) (Some 9) 10 None None
           [sample_9; sample_5]).
  - vm_compute. reflexivity.
  - left. reflexivity.
Defined.

(** C5 (as amended). Every sample [collect_processed] returns has the
    package name of a [package_name] filter that is not the empty string,
    and the uid, as a string, of a [uid] filter that is not the empty
    string. *)
Theorem collect_processed_filters (fs : storage) (start_ms end_ms : option Z)
    (limit : Z) (pkg_filter uid_filter : option string) (res : list Sample)
    (s : Sample) :
  collect_processed fs start_ms end_ms limit pkg_filter uid_filter = Ok res ->
  In s res ->
  (forall p, pkg_filter = Some p -> p <> EmptyString -> package_name s = p)
  /\ (forall u, uid_filter = Some u -> u <> EmptyString -> uid s = u).
Proof.
  intros H Hin.
  eapply (collect_processed_Forall
            (fun s =>
               (forall p, pkg_filter = Some p -> p <> EmptyString -> package_name s = p)
               /\ (forall u, uid_filter = Some u -> u <> EmptyString -> uid s = u))) in H.
  - rewrite List.Forall_forall in H. apply H, Hin.
  - intros row recs Hp Hu Hm.
    apply parse_metrics_labels in Hm.
    eapply Forall_impl; [exact Hm|]. simpl. intros rec [-> ->] _.
    split.
    + intros p -> Hne. apply filtered_out_false; assumption.
    + intros u -> Hne. apply filtered_out_false; assumption.
Qed.

Lemma collect_processed_filters_witness :
  (forall p, Some "com.b" = Some p -> p <> EmptyString -> package_name sample_3 = p)
  /\ (forall u, Some "11" = Some u -> u <> EmptyString -> uid sample_3 = u).
Proof.
  apply (collect_processed_filters example_db None None 10 (Some "com.b") (Some "11")
           [sample_3]).
  - vm_compute. reflexivity.
  - left. reflexivity.
Defined.

(** C5 (as stated) fails: a [package_name] filter that is the empty string
    is supplied and filters nothing, so samples of the package [com.a] are
    returned under it. *)
Lemma empty_filter_filters_nothing :
  ~ (forall (fs : storage) (start_ms end_ms : option Z) (limit : Z)
       (pkg_filter uid_filter : option string) (res : list Sample) (s : Sample),
       collect_processed fs start_ms end_ms limit pkg_filter uid_filter = Ok res ->
       In s res ->
       (forall p, pkg_filter = Some p -> package_name s = p)
       /\ (forall u, uid_filter = Some u -> uid s = u)).
Proof.
  intros H.
  assert (E : collect_processed example_db None None 2 (Some EmptyString) None
              = Ok [sample_5; sample_3]) by (vm_compute; reflexivity).
  destruct (H _ _ _ _ _ _ _ sample_5 E (or_introl eq_refl)) as [Hp _].
  specialize (Hp EmptyString eq_refl). discriminate.
Qed.

(** C6. Whichever way [collect_processed] ends, at the cap or after the
    full scan, the list it returns is in descending order of timestamp:
    no sample is followed by one of a greater timestamp. *)
Theorem collect_processed_descending (fs : storage) (start_ms end_ms : option Z)
    (limit : Z) (pkg_filter uid_filter : option string) (res : list Sample) :
  collect_processed fs start_ms end_ms limit pkg_filter uid_filter = Ok res ->
  descending res.
Proof.
  intros H.
  destruct (collect_processed_Ok _ _ _ _ _ _ _ H) as [tables ->].
  rewrite collect_processed_rows in H.
  destruct (scan_rows _ _ _ _ _ _ _) as [f|e] eqn:E; simpl in H; [|discriminate].
  destruct f as [results|value]; injection H as <-.
  - apply sort_reverse_sorted.
  - eapply scan_rows_Return. exact E.
Qed.

Lemma collect_processed_descending_witness :
  descending [sample_9; sample_5; sample_3].
Proof.
  apply (collect_processed_descending example_db None None 10 None None).
  vm_compute. reflexivity.
Defined.

(** C10. On a [NULL] or empty metrics blob [parse_metrics] returns the
    empty list and raises nothing, and a row with such a blob adds nothing
    to a collection: with the row or without it, [collect_processed]
    gives the same. *)
Theorem no_metrics_no_samples (pkg uid : string) :
  parse_metrics None pkg uid = Ok []
  /\ parse_metrics (Some EmptyString) pkg uid = Ok []
  /\ forall (tables : gmap string (list Row)) (t : string) (pre post : list Row)
       (row : Row) (start_ms end_ms : option Z) (limit : Z)
       (pkg_filter uid_filter : option string),
       tables !! t = Some (pre ++ row :: post)%list ->
       no_metrics row = true ->
       collect_processed (Some (SqliteFile tables)) start_ms end_ms limit
         pkg_filter uid_filter
       = collect_processed (Some (SqliteFile (<[t := (pre ++ post)%list]> tables)))
           start_ms end_ms limit pkg_filter uid_filter.
Proof.
  split; [reflexivity|]. split; [reflexivity|].
  intros tables t pre post row start_ms end_ms limit pkg_filter uid_filter Ht Hrow.
  rewrite !collect_processed_rows.
  rewrite (scan_rows_no_metrics _ _ _ _ _ (scan_order tables TABLES)).
  rewrite (scan_rows_no_metrics _ _ _ _ _ (scan_order (<[t := _]> tables) TABLES)).
  rewrite (scan_order_without tables t pre post row TABLES Ht Hrow).
  reflexivity.
Qed.

Lemma no_metrics_no_samples_witness :
  collect_processed (Some (SqliteFile example_tables_with_null)) None None 10 None None
  = collect_processed
      (Some (SqliteFile (<["processes1" := (example_scanned ++ example_unscanned)%list]>
                           example_tables_with_null)))
      None None 10 None None.
Proof.
  apply (proj2 (proj2 (no_metrics_no_samples "com.c" "12"))
           example_tables_with_null "processes1" example_scanned example_unscanned
           null_row).
  - vm_compute. reflexivity.
  - reflexivity.
Defined.

(** The rows after the one that reaches the cap are not decoded: a row
    whose decoding raises is harmless behind the cap and fatal before
    it. *)
Example early_exit_skips_later_rows :
  collect_processed (Some (SqliteFile example_tables_then_overflow))
    None None 2 None None = Ok [sample_5; sample_3]
  /\ collect_processed (Some (SqliteFile example_tables_then_overflow))
       None None 3 None None = Raise OverflowError.
Proof. split; vm_compute; reflexivity. Qed.

(** Equal timestamps are kept, in scan order: the order is descending and
    not strictly so. *)
Example equal_timestamps_kept :
  Py.sort_reverse timestramp [sample_3; sample_5; example_sample "com.c" "12" 5]
  = [sample_5; example_sample "com.c" "12" 5; sample_3].
Proof. reflexivity. Qed.

(** C7 (the code at the failing input). The chunk has no timestamp, so it
    is to be dropped without a sound; its [cpu_usage] is empty and its
    [delta_cpu_time] is beyond the floats, and the derivation, which runs
    before the timestamp is looked at, raises [OverflowError] out of
    [parse_metrics]. *)
Theorem missing_timestamp_chunk_raises :
  geti (Py.split ":" overflow_blob_no_timestamp) 0 = Ok None
  /\ parse_metrics (Some overflow_blob_no_timestamp) "com.a" "10"
     = Raise OverflowError.
Proof. split; vm_compute; reflexivity. Qed.

(** C8 (the code at the failing input). The timestamp of the chunk parses,
    its [cpu_usage] sub-field is empty and its [rx_data] sub-field is no
    numeral; both are read as absent, and then the derivation converts a
    [delta_cpu_time] beyond the floats and [OverflowError] leaves
    [parse_metrics]: no sample is emitted. *)
Theorem malformed_chunk_raises :
  geti (Py.split ":" overflow_blob) 0 = Ok (Some 1000)
  /\ getf (Py.split ":" overflow_blob) 3 = Ok None
  /\ geti (Py.split ":" overflow_blob) 4 = Ok None
  /\ parse_metrics (Some overflow_blob) "com.a" "10" = Raise OverflowError.
Proof. split; [|split; [|split]]; vm_compute; reflexivity. Qed.

(** C9 (the code at the failing input). [POST /upload-db] with
    [start_ms = 10] and [end_ms = 5] is not refused: the file is stored,
    the tables are scanned and an empty result is returned; on a file that
    is no database the scan, not the range, raises. *)
Theorem upload_db_accepts_reversed_range :
  upload_db None "live.sqlite" (SqliteFile example_tables)
    (Some 10) (Some 5) None None 1000
  = (example_db, Ok {| saved_as := DB_PATH; count := 0; results := [] |})
  /\ upload_db None "live.sqlite" NotADatabase (Some 10) (Some 5) None None 1000
     = (Some NotADatabase, Raise DatabaseError).
Proof. split; vm_compute; reflexivity. Qed.

(** * Further properties of the code *)

(** ** [float] of an int of fewer than 1024 bits is finite *)

Lemma digits2_pos_gt (m : positive) : Zpos m < 2 ^ Zpos (digits2_pos m).
Proof.
  induction m as [m IH|m IH|]; simpl digits2_pos;
    try (rewrite Pos2Z.inj_succ, Z.pow_succ_r by lia; lia).
  reflexivity.
Qed.

Lemma digits2_pos_bound (m : positive) (k : Z) :
  Zpos m < 2 ^ k -> Zpos (digits2_pos m) <= k.
Proof.
  intros H. pose proof (digits2_pos_le m) as Hle.
  destruct (Z.le_gt_cases (Zpos (digits2_pos m)) k) as [|Hgt]; [assumption|].
  assert (2 ^ k <= 2 ^ (Zpos (digits2_pos m) - 1)); [|lia].
  destruct (Z.le_gt_cases 0 k).
  - apply Z.pow_le_mono_r; lia.
  - rewrite (Z.pow_neg_r 2 k) by lia. apply Z.pow_nonneg. lia.
Qed.

Lemma iter_xO_value (m k : positive) :
  Zpos (Pos.iter xO m k) = Zpos m * 2 ^ Zpos k.
Proof.
  induction k as [|k IH] using Pos.peano_ind.
  - simpl. lia.
  - rewrite Pos.iter_succ, Pos2Z.inj_xO, IH, Pos2Z.inj_succ, Z.pow_succ_r by lia. lia.
Qed.

(** The exponent after the shift, and the size of the mantissa. *)
Lemma shr_fexp_bounds (m e : Z) (l : location) :
  0 < m -> emin Py.prec Py.emax <= e ->
  shr_m (fst (shr_fexp Py.prec Py.emax m e l)) < 2 ^ 53
  /\ snd (shr_fexp Py.prec Py.emax m e l) = Z.max e (Zdigits2 m + e - 53).
Proof.
  intros Hm He. unfold shr_fexp, shr.
  assert (Hrec : shr_m (shr_record_of_loc m l) = m)
    by (destruct l as [|[]]; reflexivity).
  destruct m as [|p|p]; try lia. simpl Zdigits2.
  pose proof (digits2_pos_gt p) as Hd.
  unfold fexp, emin, Py.prec, Py.emax in *.
  destruct (Z.max (Zpos (digits2_pos p) + e - 53) (3 - 1024 - 53) - e) as [|n|n] eqn:En;
    simpl.
  - rewrite Hrec. split; [|lia].
    eapply Z.lt_le_trans; [exact Hd|]. apply Z.pow_le_mono_r; lia.
  - rewrite iter_shr_1_m by (rewrite Hrec; lia). rewrite Hrec.
    assert (Hn : Zpos n = Zpos (digits2_pos p) - 53) by lia.
    split; [|lia].
    apply Z.div_lt_upper_bound; [apply Z.pow_pos_nonneg; lia|].
    rewrite <- Z.pow_add_r by lia.
    replace (Zpos n + 53) with (Zpos (digits2_pos p)) by lia. exact Hd.
  - rewrite Hrec. split; [|lia].
    eapply Z.lt_le_trans; [exact Hd|]. apply Z.pow_le_mono_r; lia.
Qed.

Lemma round_nearest_even_le (m : Z) (l : location) :
  round_nearest_even m l <= m + 1.
Proof. destruct l as [|[]]; simpl; try lia. destruct (Z.even m); lia. Qed.

Lemma binary_round_aux_finite (s : bool) (m e : Z) (l : location) :
  0 < m -> emin Py.prec Py.emax <= e ->
  Z.max e (Zdigits2 m + e - 53) <= 970 ->
  exists m' e', binary_round_aux Py.prec Py.emax s m e l = S754_finite s m' e'.
Proof.
  intros Hm He Hbound. unfold binary_round_aux.
  destruct (shr_fexp_pos m e l Hm He) as [H1 H1e].
  destruct (shr_fexp_bounds m e l Hm He) as [H1u H1x].
  destruct (shr_fexp Py.prec Py.emax m e l) as [mrs' e1]. simpl in H1, H1e, H1u, H1x.
  pose proof (round_nearest_even_pos (shr_m mrs') (loc_of_shr_record mrs') H1) as H2.
  pose proof (round_nearest_even_le (shr_m mrs') (loc_of_shr_record mrs')) as H2u.
  destruct (shr_fexp_pos _ e1 loc_Exact H2 H1e) as [H3 _].
  destruct (shr_fexp_bounds _ e1 loc_Exact H2 H1e) as [_ H3x].
  destruct (shr_fexp Py.prec Py.emax _ e1 loc_Exact) as [mrs'' e2]. simpl in H3, H3x.
  assert (Hdig : Zdigits2 (round_nearest_even (shr_m mrs') (loc_of_shr_record mrs')) <= 54).
  { destruct (round_nearest_even (shr_m mrs') (loc_of_shr_record mrs')) as [|p|p];
      try lia. simpl. apply digits2_pos_bound.
    assert (2 ^ 53 < 2 ^ 54) by (apply Z.pow_lt_mono_r; lia). lia. }
  destruct (shr_m mrs'') as [|p|p]; try lia.
  destruct (Z.leb_spec e2 (Py.emax - Py.prec)) as [_|Hbad]; [eauto|].
  unfold Py.emax, Py.prec in Hbad. lia.
Qed.

Lemma float_of_int_returns (z : Z) :
  Z.abs z < 2 ^ 1023 -> exists x, Py.float_of_int z = Ok x.
Proof.
  intros Hz. unfold Py.float_of_int.
  assert (H : forall s m, Zpos m < 2 ^ 1023 ->
            exists m' e', binary_round Py.prec Py.emax s m 0 = S754_finite s m' e').
  { intros s m Hm. unfold binary_round.
    pose proof (digits2_pos_bound m 1023 Hm) as Hd.
    pose proof (digits2_pos_gt m) as Hgt.
    destruct (shl_align m 0 _) as [mz ez] eqn:Ea.
    unfold shl_align in Ea. unfold fexp, emin, Py.prec, Py.emax in *.
    destruct (Z.max (Zpos (digits2_pos m) + 0 - 53) (3 - 1024 - 53) - 0) as [|n|n] eqn:Ef;
      injection Ea as <- <-.
    - apply binary_round_aux_finite; unfold emin, Py.prec, Py.emax; simpl Zdigits2; lia.
    - apply binary_round_aux_finite; unfold emin, Py.prec, Py.emax; simpl Zdigits2; lia.
    - assert (Hn : Zpos n = 53 - Zpos (digits2_pos m)) by lia.
      apply binary_round_aux_finite; unfold emin, Py.prec, Py.emax; [lia|lia|].
      simpl Zdigits2.
      assert (Zpos (digits2_pos (Pos.iter xO m n)) <= 53); [|lia].
      apply digits2_pos_bound. rewrite iter_xO_value.
      replace 53 with (Zpos (digits2_pos m) + Zpos n) by lia.
      rewrite Z.pow_add_r by lia.
      apply Z.mul_lt_mono_pos_r; [apply Z.pow_pos_nonneg; lia|exact Hgt]. }
  destruct z as [|m|m]; simpl binary_normalize.
  - eauto.
  - destruct (H false m) as (m' & e' & ->); [simpl in Hz; lia|eauto].
  - destruct (H true m) as (m' & e' & ->); [simpl in Hz; lia|eauto].
Qed.

(** ** Splitting and the chunks of a concatenation *)

Lemma split_app (sep : ascii) (a b : string) :
  Py.split sep (a ++ String sep b) = (Py.split sep a ++ Py.split sep b)%list.
Proof.
  unfold Py.split. induction a as [|c a IH]; simpl.
  - rewrite Ascii.eqb_refl. destruct (Py.split_pieces sep b). reflexivity.
  - destruct (Py.split_pieces sep (a ++ String sep b)) as [p ps].
    destruct (Py.split_pieces sep a) as [pa psa].
    destruct (Py.split_pieces sep b) as [pb psb].
    simpl in IH. injection IH as -> ->.
    destruct (Ascii.eqb c sep); reflexivity.
Qed.

Lemma chunks_of_app (a b : string) :
  chunks_of (a ++ String ";" b) = (chunks_of a ++ chunks_of b)%list.
Proof. unfold chunks_of. rewrite split_app, List.filter_app. reflexivity. Qed.

Lemma parse_chunks_acc (chunks : list string) (pkg uid_row : string) :
  forall out,
    parse_chunks chunks pkg uid_row out
    = let* new := parse_chunks chunks pkg uid_row [] in Ok (out ++ new)%list.
Proof.
  induction chunks as [|chunk chunks IH]; intros out; simpl.
  - rewrite app_nil_r. reflexivity.
  - destruct (parse_chunk chunk pkg uid_row) as [[s|]|e]; simpl; [| |reflexivity].
    + rewrite (IH (out ++ [s])%list), (IH [s]).
      destruct (parse_chunks chunks pkg uid_row []); simpl; [|reflexivity].
      rewrite <- app_assoc. reflexivity.
    + apply IH.
Qed.

Lemma parse_chunks_app (ca cb : list string) (pkg uid_row : string) :
  forall out,
    parse_chunks (ca ++ cb)%list pkg uid_row out
    = let* mid := parse_chunks ca pkg uid_row out in parse_chunks cb pkg uid_row mid.
Proof.
  induction ca as [|chunk ca IH]; intros out; simpl; [reflexivity|].
  destruct (parse_chunk chunk pkg uid_row) as [[s|]|e]; simpl; [apply IH|apply IH|reflexivity].
Qed.

Lemma geti_app_l (parts more : list string) (i : nat) :
  (i < List.length parts)%nat -> geti (parts ++ more)%list i = geti parts i.
Proof.
  intros H. unfold geti, Py.getitem. rewrite lookup_app_l by exact H. reflexivity.
Qed.

Lemma getf_app_l (parts more : list string) (i : nat) :
  (i < List.length parts)%nat -> getf (parts ++ more)%list i = getf parts i.
Proof.
  intros H. unfold getf, Py.getitem. rewrite lookup_app_l by exact H. reflexivity.
Qed.

(** ** Further properties of the decoder *)

Lemma parse_metrics_chunks (m pkg uid_row : string) :
  parse_metrics (Some m) pkg uid_row = parse_chunks (chunks_of m) pkg uid_row [].
Proof.
  unfold parse_metrics, Py.truthy_str.
  destruct (String.eqb_spec m EmptyString) as [->|]; reflexivity.
Qed.

(** The chunk behind an exception of [parse_metrics], with the size of the
    int that did not fit. *)
Lemma parse_metrics_overflow (metrics : option string) (pkg uid_row : string) (e : exn) :
  parse_metrics metrics pkg uid_row = Raise e ->
  e = OverflowError
  /\ exists m chunk u d,
       metrics = Some m /\ In chunk (chunks_of m)
       /\ getf (Py.split ":" chunk) 3 = Ok None
       /\ geti (Py.split ":" chunk) 1 = Ok (Some u) /\ u <> 0
       /\ geti (Py.split ":" chunk) 2 = Ok (Some d)
       /\ (2 ^ 1023 <= Z.abs d \/ 2 ^ 1023 <= Z.abs u).
Proof.
  intros H. apply parse_metrics_raises in H.
  destruct H as [-> (m & chunk & -> & Hc & Hr)].
  split; [reflexivity|].
  apply parse_chunk_raises in Hr.
  destruct Hr as (_ & Hcpu & u & d & Hu & Hne & Hd & Hov).
  exists m, chunk, u, d. repeat (split; [assumption || reflexivity|]).
  destruct Hov as [Hov|Hov]; [left|right];
    match goal with
    | |- _ <= Z.abs ?z =>
        destruct (Z.le_gt_cases (2 ^ 1023) (Z.abs z)) as [|Hlt]; [assumption|];
        destruct (float_of_int_returns z) as [x Hx]; [lia|congruence]
    end.
Qed.

(** X1. The only exception that leaves [parse_metrics] is [OverflowError],
    and it comes from a chunk whose [cpu_usage] is absent, whose
    [usage_time] is present and not zero and whose [delta_cpu_time] is
    present, one of the two being of 1024 bits or more. *)
Theorem decoder_raises_only_on_overflow (metrics : option string)
    (pkg uid_row : string) (e : exn) :
  parse_metrics metrics pkg uid_row = Raise e ->
  e = OverflowError
  /\ exists m chunk u d,
       metrics = Some m /\ In chunk (chunks_of m)
       /\ getf (Py.split ":" chunk) 3 = Ok None
       /\ geti (Py.split ":" chunk) 1 = Ok (Some u) /\ u <> 0
       /\ geti (Py.split ":" chunk) 2 = Ok (Some d)
       /\ (2 ^ 1023 <= Z.abs d \/ 2 ^ 1023 <= Z.abs u).
Proof. apply parse_metrics_overflow. Qed.

Lemma decoder_raises_only_on_overflow_witness :
  OverflowError = OverflowError
  /\ exists m chunk u d,
       Some overflow_blob = Some m /\ In chunk (chunks_of m)
       /\ getf (Py.split ":" chunk) 3 = Ok None
       /\ geti (Py.split ":" chunk) 1 = Ok (Some u) /\ u <> 0
       /\ geti (Py.split ":" chunk) 2 = Ok (Some d)
       /\ (2 ^ 1023 <= Z.abs d \/ 2 ^ 1023 <= Z.abs u).
Proof.
  apply (decoder_raises_only_on_overflow (Some overflow_blob) "com.a" "10").
  vm_compute. reflexivity.
Defined.

(** X2. [parse_metrics] returns, and raises nothing, on every blob whose
    integer sub-fields are all below [2^1023] in absolute value: on every
    blob of 64-bit values. *)
Theorem decoder_returns_on_bounded_ints (m pkg uid_row : string) :
  (forall chunk i z,
     In chunk (chunks_of m) -> geti (Py.split ":" chunk) i = Ok (Some z) ->
     Z.abs z < 2 ^ 1023) ->
  exists out, parse_metrics (Some m) pkg uid_row = Ok out.
Proof.
  intros Hb. destruct (parse_metrics (Some m) pkg uid_row) as [out|e] eqn:E; [eauto|].
  apply parse_metrics_overflow in E.
  destruct E as (_ & m' & chunk & u & d & [= <-] & Hc & _ & Hu & _ & Hd & Hbig).
  pose proof (Hb chunk 1%nat u Hc Hu). pose proof (Hb chunk 2%nat d Hc Hd). lia.
Qed.

Lemma decoder_returns_on_bounded_ints_witness :
  exists out, parse_metrics (Some full_chunk) "com.a" "10" = Ok out.
Proof.
  apply (decoder_returns_on_bounded_ints full_chunk "com.a" "10").
  intros chunk i z Hc Hz. vm_compute in Hc. destruct Hc as [<-|[]].
  assert (Hz' : Z.abs z <= 1000); [|assert (1000 < 2 ^ 1023) by reflexivity; lia].
  do 6 (destruct i as [|i];
    [vm_compute in Hz; first [discriminate|inversion Hz; subst z; simpl; lia]|]).
  rewrite geti_out_of_range in Hz by (vm_compute; lia). discriminate.
Defined.

(** X3. Decoding composes over the semicolon: the samples of two blobs
    joined by a semicolon are the samples of the first followed by the
    samples of the second, and the join raises when one of them does. *)
Theorem decoder_composes (a b pkg uid_row : string) :
  parse_metrics (Some (a ++ String ";" b)) pkg uid_row
  = let* x := parse_metrics (Some a) pkg uid_row in
    let* y := parse_metrics (Some b) pkg uid_row in
    Ok (x ++ y)%list.
Proof.
  rewrite !parse_metrics_chunks, chunks_of_app, parse_chunks_app.
  destruct (parse_chunks (chunks_of a) pkg uid_row []) as [x|e]; simpl; [|reflexivity].
  apply parse_chunks_acc.
Qed.

Lemma parse_chunks_per_chunk (chunks : list string) (pkg uid_row : string) :
  forall out,
    parse_chunks chunks pkg uid_row [] = Ok out ->
    Forall2 (fun chunk s => parse_chunk chunk pkg uid_row = Ok (Some s))
      (List.filter has_timestamp chunks) out.
Proof.
  induction chunks as [|chunk chunks IH]; intros out H; simpl in H.
  - injection H as <-. constructor.
  - destruct (parse_chunk chunk pkg uid_row) as [[s|]|e] eqn:E; simpl in H;
      [| |discriminate]; pose proof (parse_chunk_returns _ _ _ _ E) as Hts;
      simpl in Hts; simpl List.filter; unfold has_timestamp at 1; rewrite Hts.
    + rewrite parse_chunks_acc in H.
      destruct (parse_chunks chunks pkg uid_row []) as [new|]; simpl in H; [|discriminate].
      injection H as <-. constructor; [exact E|apply IH; reflexivity].
    + apply IH. exact H.
Qed.

(** X4. The samples [parse_metrics] returns are, one for one and in the
    order of the blob, the samples of the chunks whose timestamp parses:
    the other chunks leave no trace, and no chunk gives two samples. *)
Theorem decoder_one_sample_per_chunk (m pkg uid_row : string) (out : list Sample) :
  parse_metrics (Some m) pkg uid_row = Ok out ->
  Forall2 (fun chunk s => parse_chunk chunk pkg uid_row = Ok (Some s))
    (List.filter has_timestamp (chunks_of m)) out
  /\ List.length out = List.length (List.filter has_timestamp (chunks_of m)).
Proof.
  rewrite parse_metrics_chunks. intros H.
  apply parse_chunks_per_chunk in H. split; [exact H|].
  symmetry. eapply Forall2_length. exact H.
Qed.

Lemma decoder_one_sample_per_chunk_witness :
  Forall2 (fun chunk s => parse_chunk chunk "com.a" "10" = Ok (Some s))
    (List.filter has_timestamp (chunks_of mixed_blob))
    [example_sample "com.a" "10" 7; example_sample "com.a" "10" 9]
  /\ List.length [example_sample "com.a" "10" 7; example_sample "com.a" "10" 9]
     = List.length (List.filter has_timestamp (chunks_of mixed_blob)).
Proof.
  apply (decoder_one_sample_per_chunk mixed_blob "com.a" "10").
  vm_compute. reflexivity.
Defined.

(** X5. Sub-fields after the sixth are ignored: a chunk of six sub-fields
    or more decodes the same with anything appended after a colon. *)
Theorem extra_subfields_ignored (chunk extra pkg uid_row : string) :
  (6 <= List.length (Py.split ":" chunk))%nat ->
  parse_chunk (chunk ++ String ":" extra) pkg uid_row = parse_chunk chunk pkg uid_row.
Proof.
  intros H. rewrite !parse_chunk_unfold. cbv zeta. rewrite split_app.
  rewrite !geti_app_l, getf_app_l by lia. reflexivity.
Qed.

Lemma extra_subfields_ignored_witness :
  parse_chunk (full_chunk ++ String ":" "99:abc") "com.a" "10"
  = parse_chunk full_chunk "com.a" "10".
Proof.
  apply (extra_subfields_ignored full_chunk "99:abc" "com.a" "10").
  vm_compute. lia.
Defined.

(** ** Further properties of the collector *)

Section SortStable.
Context {A : Type} (key : A -> Z).

Lemma insert_reverse_filter (t : Z) (x : A) (l : list A) :
  List.filter (fun a => key a =? t) (Py.insert_reverse key x l)
  = List.filter (fun a => key a =? t) (x :: l).
Proof.
  induction l as [|y l IH]; [reflexivity|]. simpl Py.insert_reverse.
  destruct (Z.leb_spec (key y) (key x)) as [Hle|Hgt]; [reflexivity|].
  simpl in IH |- *. rewrite IH.
  destruct (Z.eqb_spec (key x) t), (Z.eqb_spec (key y) t); try reflexivity. lia.
Qed.

(** The sort is stable: the elements of one key keep their order. *)
Lemma sort_reverse_stable (t : Z) (l : list A) :
  List.filter (fun a => key a =? t) (Py.sort_reverse key l)
  = List.filter (fun a => key a =? t) l.
Proof.
  induction l as [|x l IH]; [reflexivity|]. simpl Py.sort_reverse.
  rewrite insert_reverse_filter. simpl. rewrite IH. reflexivity.
Qed.

End SortStable.

(** X6. When every row decodes and the matching samples stay below the
    cap, [collect_processed] returns all of them and nothing else, in
    descending order of timestamp, the samples of one timestamp in scan
    order. *)
Theorem full_scan_returns_all (tables : gmap string (list Row))
    (start_ms end_ms : option Z) (limit : Z) (pkg_filter uid_filter : option string)
    (ms : list Sample) :
  1 <= limit ->
  matching_samples start_ms end_ms pkg_filter uid_filter (scan_order tables TABLES)
  = Ok ms ->
  Z.of_nat (List.length ms) < limit ->
  exists res,
    collect_processed (Some (SqliteFile tables)) start_ms end_ms limit
      pkg_filter uid_filter = Ok res
    /\ Permutation res ms
    /\ descending res
    /\ forall t, List.filter (fun s => timestramp s =? t) res
                 = List.filter (fun s => timestramp s =? t) ms.
Proof.
  intros Hlimit Hms Hlen. exists (Py.sort_reverse timestramp ms).
  split; [apply collect_processed_full_scan; assumption|].
  split; [apply sort_reverse_perm|].
  split; [apply sort_reverse_sorted|].
  intros t. apply sort_reverse_stable.
Qed.

Lemma full_scan_returns_all_witness :
  exists res,
    collect_processed example_db None None 10 None None = Ok res
    /\ Permutation res [sample_5; sample_3; sample_9]
    /\ descending res
    /\ forall t, List.filter (fun s => timestramp s =? t) res
                 = List.filter (fun s => timestramp s =? t) [sample_5; sample_3; sample_9].
Proof.
  apply (full_scan_returns_all example_tables None None 10 None None
           [sample_5; sample_3; sample_9]).
  - lia.
  - vm_compute. reflexivity.
  - simpl. lia.
Defined.



Lemma scan_recs_nonpositive (start_ms end_ms : option Z) (limit : Z)
    (recs : list Sample) :
  limit <= 0 ->
  match scan_recs start_ms end_ms limit recs [] with
  | Continue results => results = []
  | Return value => List.length value = 1%nat
  end.
Proof.
  intros Hlimit. induction recs as [|rec recs IH]; simpl; [reflexivity|].
  destruct (in_range start_ms end_ms (timestramp rec)); [|exact IH].
  destruct (Z.leb_spec limit (Z.of_nat 1)); [reflexivity|simpl in *; lia].
Qed.

Lemma scan_rows_nonpositive (start_ms end_ms : option Z) (limit : Z)
    (pkg_filter uid_filter : option string) (rows : list Row) (f : flow) :
  limit <= 0 ->
  scan_rows start_ms end_ms limit pkg_filter uid_filter rows [] = Ok f ->
  match f with
  | Continue results => results = []
  | Return value => List.length value = 1%nat
  end.
Proof.
  intros Hlimit. induction rows as [|row rows IH]; simpl; intros H.
  - injection H as <-. reflexivity.
  - destruct (filtered_out pkg_filter (PackageName row)); [exact (IH H)|].
    destruct (filtered_out uid_filter (str (Uid row))); [exact (IH H)|].
    destruct (parse_metrics _ _ _) as [recs|e]; simpl in H; [|discriminate].
    pose proof (scan_recs_nonpositive start_ms end_ms limit recs Hlimit) as Hr.
    destruct (scan_recs start_ms end_ms limit recs []) as [results|value].
    + subst results. exact (IH H).
    + injection H as <-. exact Hr.
Qed.

(** X8. A cap of zero or less does not lift the cap: the scan stops at the
    first matching sample, and at most one sample is returned. *)
Theorem nonpositive_limit_returns_one (fs : storage) (start_ms end_ms : option Z)
    (limit : Z) (pkg_filter uid_filter : option string) (res : list Sample) :
  limit <= 0 ->
  collect_processed fs start_ms end_ms limit pkg_filter uid_filter = Ok res ->
  (List.length res <= 1)%nat.
Proof.
  intros Hlimit H.
  destruct (collect_processed_Ok _ _ _ _ _ _ _ H) as [tables ->].
  rewrite collect_processed_rows in H.
  destruct (scan_rows _ _ _ _ _ _ _) as [f|e] eqn:E; simpl in H; [|discriminate].
  apply scan_rows_nonpositive in E; [|exact Hlimit].
  destruct f as [results|value]; injection H as <-.
  - subst results. simpl. lia.
  - lia.
Qed.

Lemma nonpositive_limit_returns_one_witness :
  (List.length [sample_5] <= 1)%nat.
Proof.
  apply (nonpositive_limit_returns_one example_db None None 0 None None).
  - lia.
  - vm_compute. reflexivity.
Defined.

Lemma filtered_out_empty (value : string) :
  filtered_out (Some EmptyString) value = filtered_out None value.
Proof. reflexivity. Qed.

Lemma scan_rows_filters_ext (start_ms end_ms : option Z) (limit : Z)
    (pf pf' uf uf' : option string) (rows : list Row) :
  (forall v, filtered_out pf v = filtered_out pf' v) ->
  (forall v, filtered_out uf v = filtered_out uf' v) ->
  forall results,
    scan_rows start_ms end_ms limit pf uf rows results
    = scan_rows start_ms end_ms limit pf' uf' rows results.
Proof.
  intros Hp Hu. induction rows as [|row rows IH]; intros results; simpl; [reflexivity|].
  rewrite Hp, Hu.
  destruct (filtered_out pf' (PackageName row)); [apply IH|].
  destruct (filtered_out uf' (str (Uid row))); [apply IH|].
  destruct (parse_metrics _ _ _) as [recs|e]; simpl; [|reflexivity].
  destruct (scan_recs _ _ _ recs results); [apply IH|reflexivity].
Qed.

(** X9. A filter that is the empty string is no filter: on the package
    name and on the uid, [collect_processed] gives with it what it gives
    without it. *)
Theorem empty_filter_is_no_filter (fs : storage) (start_ms end_ms : option Z)
    (limit : Z) (pkg_filter uid_filter : option string) :
  collect_processed fs start_ms end_ms limit (Some EmptyString) uid_filter
  = collect_processed fs start_ms end_ms limit None uid_filter
  /\ collect_processed fs start_ms end_ms limit pkg_filter (Some EmptyString)
     = collect_processed fs start_ms end_ms limit pkg_filter None.
Proof.
  destruct fs as [[tables|]|]; [|split; reflexivity|split; reflexivity].
  rewrite !collect_processed_rows. split.
  - rewrite (scan_rows_filters_ext _ _ _ (Some EmptyString) None uid_filter uid_filter);
      [reflexivity|apply filtered_out_empty|reflexivity].
  - rewrite (scan_rows_filters_ext _ _ _ pkg_filter pkg_filter (Some EmptyString) None);
      [reflexivity|reflexivity|apply filtered_out_empty].
Qed.

(** X10. Only the tables [processes1], [processes2] and [processes3] count,
    each when it exists: two databases that agree on these three give the
    same collection, whatever other tables they hold. *)
Theorem only_the_three_tables_count (tables1 tables2 : gmap string (list Row))
    (start_ms end_ms : option Z) (limit : Z) (pkg_filter uid_filter : option string) :
  (forall t, In t TABLES -> tables1 !! t = tables2 !! t) ->
  collect_processed (Some (SqliteFile tables1)) start_ms end_ms limit
    pkg_filter uid_filter
  = collect_processed (Some (SqliteFile tables2)) start_ms end_ms limit
      pkg_filter uid_filter.
Proof.
  intros H. rewrite !collect_processed_rows.
  replace (scan_order tables2 TABLES) with (scan_order tables1 TABLES); [reflexivity|].
  unfold scan_order. f_equal. apply List.map_ext_in.
  intros t Ht. rewrite (H t Ht). reflexivity.
Qed.

Lemma only_the_three_tables_count_witness :
  collect_processed (Some (SqliteFile example_tables)) None None 10 None None
  = collect_processed (Some (SqliteFile example_tables_with_other)) None None 10
      None None.
Proof.
  apply (only_the_three_tables_count example_tables example_tables_with_other).
  intros t Ht. unfold example_tables_with_other.
  rewrite lookup_insert_ne; [reflexivity|].
  intros <-. vm_compute in Ht. intuition discriminate.
Defined.

Lemma In_scan_order (tables : gmap string (list Row)) (names : list string) (row : Row) :
  In row (scan_order tables names) ->
  exists t rows, In t names /\ tables !! t = Some rows /\ In row rows.
Proof.
  unfold scan_order. induction names as [|n names IH]; simpl; [intros []|].
  intros H. apply in_app_or in H. destruct H as [H|H].
  - destruct (tables !! n) as [rows|] eqn:E; [|destruct H].
    exists n, rows. auto.
  - destruct (IH H) as (t & rows & Ht & Hl & Hr). exists t, rows. auto.
Qed.

(** X11. Nothing is invented: every sample [collect_processed] returns is
    the sample of a chunk of the metrics of a row of one of the three
    tables, decoded with the package name and the uid of that row. *)
Theorem collected_samples_come_from_rows (fs : storage) (start_ms end_ms : option Z)
    (limit : Z) (pkg_filter uid_filter : option string) (res : list Sample)
    (s : Sample) :
  collect_processed fs start_ms end_ms limit pkg_filter uid_filter = Ok res ->
  In s res ->
  exists tables t rows row m chunk,
    fs = Some (SqliteFile tables)
    /\ In t TABLES /\ tables !! t = Some rows /\ In row rows
    /\ Metrics row = Some m /\ In chunk (chunks_of m)
    /\ parse_chunk chunk (PackageName row) (str (Uid row)) = Ok (Some s).
Proof.
  intros H Hin.
  destruct (collect_processed_Ok _ _ _ _ _ _ _ H) as [tables ->].
  rewrite collect_processed_rows in H.
  destruct (scan_rows _ _ _ _ _ _ _) as [f|e] eqn:E; simpl in H; [|discriminate].
  eapply (scan_rows_Forall _ _ _ _ _
            (fun s => exists row m chunk,
               In row (scan_order tables TABLES)
               /\ Metrics row = Some m /\ In chunk (chunks_of m)
               /\ parse_chunk chunk (PackageName row) (str (Uid row)) = Ok (Some s)))
    in E; [| |constructor].
  - assert (Hres : Forall (fun s => exists row m chunk,
               In row (scan_order tables TABLES)
               /\ Metrics row = Some m /\ In chunk (chunks_of m)
               /\ parse_chunk chunk (PackageName row) (str (Uid row)) = Ok (Some s)) res).
    { destruct f as [results|value]; injection H as <-; simpl in E;
        [apply sort_reverse_Forall|]; exact E. }
    rewrite List.Forall_forall in Hres.
    destruct (Hres s Hin) as (row & m & chunk & Hrow & Hm & Hc & Hs).
    destruct (In_scan_order _ _ _ Hrow) as (t & rows & Ht & Hl & Hr).
    exists tables, t, rows, row, m, chunk. auto 10.
  - intros row recs Hrow _ _ Hm. apply List.Forall_forall. intros rec Hrec _.
    destruct (parse_metrics_samples _ _ _ _ _ Hm Hrec) as (m & chunk & Hmm & Hc & Hs).
    exists row, m, chunk. auto.
Qed.

Lemma collected_samples_come_from_rows_witness :
  exists tables t rows row m chunk,
    example_db = Some (SqliteFile tables)
    /\ In t TABLES /\ tables !! t = Some rows /\ In row rows
    /\ Metrics row = Some m /\ In chunk (chunks_of m)
    /\ parse_chunk chunk (PackageName row) (str (Uid row)) = Ok (Some sample_3).
Proof.
  apply (collected_samples_come_from_rows example_db None None 2 None None
           [sample_5; sample_3] sample_3).
  - vm_compute. reflexivity.
  - right. left. reflexivity.
Defined.

Lemma In_take (n : nat) (l : list Sample) (x : Sample) :
  In x (take n l) -> In x l.
Proof.
  intros H. rewrite <- (take_drop n l). apply in_or_app. left. exact H.
Qed.

Lemma capped_result (limit : Z) (ms : list Sample) :
  match capped limit ms with
  | Continue results => Py.sort_reverse timestramp results
  | Return value => value
  end = Py.sort_reverse timestramp (take (Z.to_nat limit) ms).
Proof.
  unfold capped.
  destruct (Z.leb_spec limit (Z.of_nat (List.length ms))); [reflexivity|].
  rewrite take_ge by lia. reflexivity.
Qed.

(** What [collect_processed] returns on a database every row of which
    decodes: the first [limit] matching samples, sorted. *)
Lemma collect_processed_take (tables : gmap string (list Row))
    (start_ms end_ms : option Z) (limit : Z) (pkg_filter uid_filter : option string)
    (ms : list Sample) :
  1 <= limit ->
  matching_samples start_ms end_ms pkg_filter uid_filter (scan_order tables TABLES)
  = Ok ms ->
  collect_processed (Some (SqliteFile tables)) start_ms end_ms limit
    pkg_filter uid_filter
  = Ok (Py.sort_reverse timestramp (take (Z.to_nat limit) ms)).
Proof.
  intros Hlimit Hms. rewrite collect_processed_rows.
  rewrite (scan_rows_capped _ _ _ _ _ _ Hlimit [] ms) by (simpl; lia || exact Hms).
  simpl. rewrite <- capped_result. destruct (capped limit ms); reflexivity.
Qed.

(** X12. Raising the cap only adds samples: on a database every row of
    which decodes, every sample returned under a cap is returned under
    every greater cap. *)
Theorem raising_limit_adds_samples (tables : gmap string (list Row))
    (start_ms end_ms : option Z) (limit1 limit2 : Z)
    (pkg_filter uid_filter : option string) (ms : list Sample) :
  1 <= limit1 -> limit1 <= limit2 ->
  matching_samples start_ms end_ms pkg_filter uid_filter (scan_order tables TABLES)
  = Ok ms ->
  exists res1 res2,
    collect_processed (Some (SqliteFile tables)) start_ms end_ms limit1
      pkg_filter uid_filter = Ok res1
    /\ collect_processed (Some (SqliteFile tables)) start_ms end_ms limit2
         pkg_filter uid_filter = Ok res2
    /\ (forall s, In s res1 -> In s res2)
    /\ (List.length res1 <= List.length res2)%nat.
Proof.
  intros H1 H12 Hms.
  exists (Py.sort_reverse timestramp (take (Z.to_nat limit1) ms)),
         (Py.sort_reverse timestramp (take (Z.to_nat limit2) ms)).
  split; [apply collect_processed_take; [lia|exact Hms]|].
  split; [apply collect_processed_take; [lia|exact Hms]|].
  assert (Hpre : take (Z.to_nat limit1) ms
                 = take (Z.to_nat limit1) (take (Z.to_nat limit2) ms))
    by (rewrite take_take; f_equal; lia).
  split.
  - intros s Hs.
    apply (Permutation_in _ (sort_reverse_perm timestramp _)) in Hs.
    apply (Permutation_in _ (Permutation_sym (sort_reverse_perm timestramp _))).
    rewrite Hpre in Hs. eapply In_take. exact Hs.
  - rewrite !sort_reverse_length, !length_take. lia.
Qed.

Lemma raising_limit_adds_samples_witness :
  exists res1 res2,
    collect_processed (Some (SqliteFile example_tables)) None None 2 None None = Ok res1
    /\ collect_processed (Some (SqliteFile example_tables)) None None 3 None None
       = Ok res2
    /\ (forall s, In s res1 -> In s res2)
    /\ (List.length res1 <= List.length res2)%nat.
Proof.
  apply (raising_limit_adds_samples example_tables None None 2 3 None None
           [sample_5; sample_3; sample_9]).
  - lia.
  - lia.
  - vm_compute. reflexivity.
Defined.

Section SortFilter.
Context {A : Type} (key : A -> Z) (P : A -> bool).

Lemma insert_reverse_head (x : A) (l : list A) :
  Forall (fun z => key z <= key x) l -> Py.insert_reverse key x l = x :: l.
Proof.
  intros H. destruct H as [|y l Hy _]; [reflexivity|]. simpl.
  destruct (Z.leb_spec (key y) (key x)); [reflexivity|lia].
Qed.

Lemma insert_reverse_filter_sorted (x : A) (l : list A) :
  StronglySorted (fun a b => key b <= key a) l ->
  List.filter P (Py.insert_reverse key x l)
  = if P x then Py.insert_reverse key x (List.filter P l) else List.filter P l.
Proof.
  induction 1 as [|y l Hl IH Hy]; simpl.
  - destruct (P x); reflexivity.
  - destruct (Z.leb_spec (key y) (key x)) as [Hle|Hgt]; simpl.
    + destruct (P x); [|reflexivity].
      destruct (P y); simpl.
      * destruct (Z.leb_spec (key y) (key x)); [reflexivity|lia].
      * symmetry. apply insert_reverse_head.
        apply List.Forall_forall. intros z Hz.
        apply List.filter_In in Hz. destruct Hz as [Hz _].
        rewrite List.Forall_forall in Hy. specialize (Hy z Hz). simpl in Hy. lia.
    + rewrite IH. destruct (P x), (P y); simpl; try reflexivity.
      destruct (Z.leb_spec (key y) (key x)); [lia|reflexivity].
Qed.

(** Filtering commutes with the sort. *)
Lemma sort_reverse_filter (l : list A) :
  List.filter P (Py.sort_reverse key l) = Py.sort_reverse key (List.filter P l).
Proof.
  induction l as [|x l IH]; [reflexivity|]. simpl.
  rewrite insert_reverse_filter_sorted by apply sort_reverse_sorted.
  rewrite IH. destruct (P x); reflexivity.
Qed.

End SortFilter.

Lemma matching_samples_range (start_ms end_ms : option Z)
    (pkg_filter uid_filter : option string) (rows : list Row) :
  forall ms,
    matching_samples None None pkg_filter uid_filter rows = Ok ms ->
    matching_samples start_ms end_ms pkg_filter uid_filter rows
    = Ok (List.filter (fun s => in_range start_ms end_ms (timestramp s)) ms).
Proof.
  induction rows as [|row rows IH]; intros ms H; simpl in H |- *.
  - injection H as <-. reflexivity.
  - destruct (filtered_out pkg_filter (PackageName row)
              || filtered_out uid_filter (str (Uid row))); [apply IH, H|].
    destruct (parse_metrics _ _ _) as [recs|e]; simpl in H |- *; [|discriminate].
    destruct (matching_samples None None _ _ rows) as [rest|e]; simpl in H; [|discriminate].
    injection H as <-. rewrite (IH rest eq_refl). simpl.
    rewrite List.filter_app. f_equal. f_equal.
    induction recs as [|r recs IHr]; [reflexivity|]. simpl.
    rewrite IHr. reflexivity.
Qed.

(** X13. Below the cap, a query with time bounds returns the samples of
    the query without bounds that lie within the bounds, in the same
    order: filtering by time and collecting commute. *)
Theorem range_query_filters_full_query (tables : gmap string (list Row))
    (start_ms end_ms : option Z) (limit : Z) (pkg_filter uid_filter : option string)
    (ms : list Sample) :
  1 <= limit ->
  matching_samples None None pkg_filter uid_filter (scan_order tables TABLES) = Ok ms ->
  Z.of_nat (List.length ms) < limit ->
  exists full,
    collect_processed (Some (SqliteFile tables)) None None limit
      pkg_filter uid_filter = Ok full
    /\ collect_processed (Some (SqliteFile tables)) start_ms end_ms limit
         pkg_filter uid_filter
       = Ok (List.filter (fun s => in_range start_ms end_ms (timestramp s)) full).
Proof.
  intros Hlimit Hms Hlen. exists (Py.sort_reverse timestramp ms).
  split; [apply collect_processed_full_scan; assumption|].
  rewrite sort_reverse_filter.
  apply collect_processed_full_scan;
    [exact Hlimit|apply matching_samples_range, Hms|].
  pose proof (List.filter_length_le
                (fun s => in_range start_ms end_ms (timestramp s)) ms). lia.
Qed.

Lemma range_query_filters_full_query_witness :
  exists full,
    collect_processed (Some (SqliteFile example_tables)) None None 10 None None
    = Ok full
    /\ collect_processed (Some (SqliteFile example_tables)) (Some 4) (Some 6) 10
         None None
       = Ok (List.filter (fun s => in_range (Some 4) (Some 6) (timestramp s)) full).
Proof.
  apply (range_query_filters_full_query example_tables (Some 4) (Some 6) 10 None None
           [sample_5; sample_3; sample_9]).
  - lia.
  - vm_compute. reflexivity.
  - simpl. lia.
Defined.

Lemma scan_rows_selected (start_ms end_ms : option Z) (limit : Z)
    (pkg_filter uid_filter : option string) (rows : list Row) :
  forall results,
    scan_rows start_ms end_ms limit pkg_filter uid_filter rows results
    = scan_rows start_ms end_ms limit pkg_filter uid_filter
        (List.filter (row_selected pkg_filter uid_filter) rows) results.
Proof.
  induction rows as [|row rows IH]; intros results; [reflexivity|].
  simpl List.filter. unfold row_selected at 1. simpl scan_rows at 1.
  destruct (filtered_out pkg_filter (PackageName row)) eqn:Ep; simpl; [apply IH|].
  destruct (filtered_out uid_filter (str (Uid row))) eqn:Eu; simpl; [apply IH|].
  rewrite Ep, Eu.
  destruct (parse_metrics _ _ _) as [recs|e]; simpl; [|reflexivity].
  destruct (scan_recs _ _ _ recs results); [apply IH|reflexivity].
Qed.

Lemma scan_order_selected (keep : Row -> bool) (tables : gmap string (list Row))
    (names : list string) :
  scan_order (List.filter keep <$> tables) names
  = List.filter keep (scan_order tables names).
Proof.
  unfold scan_order. induction names as [|n names IH]; [reflexivity|]. simpl.
  rewrite List.filter_app, IH, lookup_fmap. f_equal.
  destruct (tables !! n); reflexivity.
Qed.

(** X14. The test on the package and the uid comes before the decoding:
    the rows it sets aside are not decoded, so [collect_processed] gives
    the same with them and without them, even where their metrics would
    make the decoder raise. *)
Theorem unselected_rows_are_not_decoded (tables : gmap string (list Row))
    (start_ms end_ms : option Z) (limit : Z) (pkg_filter uid_filter : option string) :
  collect_processed (Some (SqliteFile tables)) start_ms end_ms limit
    pkg_filter uid_filter
  = collect_processed
      (Some (SqliteFile (List.filter (row_selected pkg_filter uid_filter) <$> tables)))
      start_ms end_ms limit pkg_filter uid_filter.
Proof.
  rewrite !collect_processed_rows, scan_order_selected.
  rewrite (scan_rows_selected _ _ _ _ _ (scan_order tables TABLES)).
  reflexivity.
Qed.

(** A query on the package [com.a] is not troubled by a row of another
    package that does not decode; the query without a filter is. *)
Example filter_shields_from_other_rows :
  collect_processed (Some (SqliteFile example_tables_with_overflow_row))
    None None 10 (Some "com.a") None = Ok [sample_9; sample_5]
  /\ collect_processed (Some (SqliteFile example_tables_with_overflow_row))
       None None 10 None None = Raise OverflowError.
Proof. split; vm_compute; reflexivity. Qed.

(** ** Further properties of the routes *)

(** The shape of what [collect_processed] returns under a cap of at least
    one. *)
Lemma collect_processed_shape (fs : storage) (start_ms end_ms : option Z)
    (limit : Z) (pkg_filter uid_filter : option string) (res : list Sample) :
  1 <= limit ->
  collect_processed fs start_ms end_ms limit pkg_filter uid_filter = Ok res ->
  Z.of_nat (List.length res) <= limit /\ descending res.
Proof.
  intros Hlimit H.
  destruct (collect_processed_Ok _ _ _ _ _ _ _ H) as [tables ->].
  rewrite collect_processed_rows in H.
  destruct (scan_rows _ _ _ _ _ _ _) as [f|e] eqn:E; simpl in H; [|discriminate].
  pose proof (scan_rows_length _ _ _ _ _ _ Hlimit [] f ltac:(simpl; lia) E) as Hlen.
  destruct f as [results|value]; injection H as <-.
  - rewrite sort_reverse_length. split; [lia|apply sort_reverse_sorted].
  - split; [exact Hlen|]. eapply scan_rows_Return. exact E.
Qed.

(** X15. What [GET /processes-latest] returns is never empty: under a cap
    of at least one it is between one sample and [limit] samples, in
    descending order of timestamp, and it is what [collect_processed]
    gives without time bounds. *)
Theorem processes_latest_returns_some (fs : storage) (limit : Z)
    (pkg_filter uid_filter : option string) (items : list Sample) :
  1 <= limit ->
  processes_latest fs limit pkg_filter uid_filter = Ok items ->
  (1 <= List.length items)%nat
  /\ Z.of_nat (List.length items) <= limit
  /\ descending items
  /\ collect_processed fs None None limit pkg_filter uid_filter = Ok items.
Proof.
  intros Hlimit H. unfold processes_latest in H.
  destruct (collect_processed fs None None limit pkg_filter uid_filter)
    as [res|e] eqn:E; simpl in H; [|discriminate].
  destruct res as [|s res]; [discriminate|]. injection H as <-.
  destruct (collect_processed_shape _ _ _ _ _ _ _ Hlimit E) as [Hlen Hdesc].
  split; [simpl; lia|]. auto.
Qed.

Lemma processes_latest_returns_some_witness :
  (1 <= List.length [sample_5; sample_3])%nat
  /\ Z.of_nat (List.length [sample_5; sample_3]) <= 2
  /\ descending [sample_5; sample_3]
  /\ collect_processed example_db None None 2 None None = Ok [sample_5; sample_3].
Proof.
  apply (processes_latest_returns_some example_db 2 None None).
  - lia.
  - vm_compute. reflexivity.
Defined.

(** X16. [GET /processes-latest] answers 404 exactly when the database is
    there and [collect_processed] finds no sample: a missing database is a
    400, not a 404. *)
Theorem processes_latest_404_iff_empty (fs : storage) (limit : Z)
    (pkg_filter uid_filter : option string) :
  processes_latest fs limit pkg_filter uid_filter
  = Raise (HTTPException 404 "Nenhum registro encontrado em data/live.sqlite")
  <-> collect_processed fs None None limit pkg_filter uid_filter = Ok [].
Proof.
  unfold processes_latest.
  destruct (collect_processed fs None None limit pkg_filter uid_filter)
    as [res|e] eqn:E; simpl.
  - destruct res; split; congruence.
  - split; [|discriminate]. intros [= ->].
    destruct (collect_processed_raises _ _ _ _ _ _ _ E) as [[_ ?]|[[_ ?]|?]];
      discriminate.
Qed.

(** X17. An upload that is answered agrees with the query that follows: the
    file is stored, and [GET /processes] with the same bounds, filters and
    cap returns the results of the upload, whose count is their number. *)
Theorem upload_then_processes (fs : storage) (filename : string) (data : db_file)
    (start_ms end_ms : Z) (pkg_filter uid_filter : option string) (limit : Z)
    (resp : upload_response) :
  snd (upload_db fs filename data (Some start_ms) (Some end_ms)
         pkg_filter uid_filter limit) = Ok resp ->
  start_ms <= end_ms ->
  fst (upload_db fs filename data (Some start_ms) (Some end_ms)
         pkg_filter uid_filter limit) = Some data
  /\ processes (Some data) start_ms end_ms pkg_filter uid_filter limit
     = Ok (results resp)
  /\ count resp = List.length (results resp)
  /\ saved_as resp = DB_PATH.
Proof.
  unfold upload_db, processes. intros H Hle.
  destruct (negb (Py.endswith_any (Py.lower filename) [".sqlite"; ".db"; ".sql"]));
    simpl in H |- *; [discriminate|].
  destruct (collect_processed (Some data) (Some start_ms) (Some end_ms) limit
              pkg_filter uid_filter) as [items|e]; simpl in H; [|discriminate].
  injection H as <-. simpl.
  destruct (Z.ltb_spec end_ms start_ms); [lia|]. auto.
Qed.

Lemma upload_then_processes_witness :
  fst (upload_db None "live.sqlite" (SqliteFile example_tables) (Some 4) (Some 9)
         None None 10) = Some (SqliteFile example_tables)
  /\ processes (Some (SqliteFile example_tables)) 4 9 None None 10
     = Ok (results {| saved_as := DB_PATH; count := 2;
                      results := [sample_9; sample_5] |})
  /\ count {| saved_as := DB_PATH; count := 2; results := [sample_9; sample_5] |}
     = List.length (results {| saved_as := DB_PATH; count := 2;
                               results := [sample_9; sample_5] |})
  /\ saved_as {| saved_as := DB_PATH; count := 2; results := [sample_9; sample_5] |}
     = DB_PATH.
Proof.
  apply (upload_then_processes None "live.sqlite" (SqliteFile example_tables) 4 9
           None None 10).
  - vm_compute. reflexivity.
  - lia.
Defined.








(** ** Further properties of the sub-fields and the samples *)

(** X19. Reading a sub-field, as an int or as a float, never raises, and
    an int sub-field reads as absent in three cases and no other: its
    index is beyond the chunk, it is the empty string, or it is no numeral
    for [int]. *)
Theorem subfield_absent_iff (parts : list string) (i : nat) :
  (exists o, geti parts i = Ok o)
  /\ (exists o, getf parts i = Ok o)
  /\ (geti parts i = Ok None
      <-> (List.length parts <= i)%nat
          \/ parts !! i = Some EmptyString
          \/ exists v, parts !! i = Some v /\ Py.int v = Raise ValueError).
Proof.
  split; [apply geti_returns|]. split; [apply getf_returns|]. split.
  - unfold geti, Py.getitem. destruct (parts !! i) as [v|] eqn:E; simpl.
    + destruct (String.eqb_spec v EmptyString) as [->|Hne]; [auto|].
      destruct (Py.int v) as [z|e] eqn:Ei; simpl; [discriminate|].
      intros _. right. right. exists v. split; [reflexivity|].
      rewrite (int_raises_ValueError _ _ Ei) in Ei. exact Ei.
    + intros _. left. apply lookup_ge_None_1. exact E.
  - intros [H|[H|(v & Hv & Hi)]].
    + apply geti_out_of_range, H.
    + apply geti_empty, H.
    + eapply geti_unparsable; eassumption.
Qed.

(** X20. Every sample [parse_metrics] returns carries the package name and
    the uid it was called with, the timestamp of its chunk, and for each
    other integer field the sub-field as parsed, or 0 where the sub-field
    is absent or zero. *)
Theorem sample_fields_defaulted (m pkg uid_row : string) (out : list Sample)
    (s : Sample) :
  parse_metrics (Some m) pkg uid_row = Ok out -> In s out ->
  exists chunk usage dcpu rx tx,
    In chunk (chunks_of m)
    /\ geti (Py.split ":" chunk) 0 = Ok (Some (timestramp s))
    /\ geti (Py.split ":" chunk) 1 = Ok usage
    /\ geti (Py.split ":" chunk) 2 = Ok dcpu
    /\ geti (Py.split ":" chunk) 4 = Ok rx
    /\ geti (Py.split ":" chunk) 5 = Ok tx
    /\ package_name s = pkg /\ uid s = uid_row
    /\ usage_time s = Py.or_int usage 0
    /\ delta_cpu_time s = Py.or_int dcpu 0
    /\ rx_data s = Py.or_int rx 0
    /\ tx_data s = Py.or_int tx 0.
Proof.
  intros H Hin.
  destruct (parse_metrics_samples _ _ _ _ _ H Hin) as (m' & chunk & [= <-] & Hc & Hs).
  apply parse_chunk_sample in Hs. cbv zeta in Hs.
  destruct Hs as (ts & usage & dcpu & cpu & rx & tx & H0 & H1 & H2 & _ & H4 & H5
                  & Hts & Hu & Hp & Hus & Hd & _ & Hrx & Htx).
  exists chunk, usage, dcpu, rx, tx. rewrite Hts. auto 15.
Qed.

Lemma sample_fields_defaulted_witness :
  exists chunk usage dcpu rx tx,
    In chunk (chunks_of mixed_blob)
    /\ geti (Py.split ":" chunk) 0 = Ok (Some (timestramp (example_sample "com.a" "10" 7)))
    /\ geti (Py.split ":" chunk) 1 = Ok usage
    /\ geti (Py.split ":" chunk) 2 = Ok dcpu
    /\ geti (Py.split ":" chunk) 4 = Ok rx
    /\ geti (Py.split ":" chunk) 5 = Ok tx
    /\ package_name (example_sample "com.a" "10" 7) = "com.a"
    /\ uid (example_sample "com.a" "10" 7) = "10"
    /\ usage_time (example_sample "com.a" "10" 7) = Py.or_int usage 0
    /\ delta_cpu_time (example_sample "com.a" "10" 7) = Py.or_int dcpu 0
    /\ rx_data (example_sample "com.a" "10" 7) = Py.or_int rx 0
    /\ tx_data (example_sample "com.a" "10" 7) = Py.or_int tx 0.
Proof.
  apply (sample_fields_defaulted mixed_blob "com.a" "10"
           [example_sample "com.a" "10" 7; example_sample "com.a" "10" 9]).
  - vm_compute. reflexivity.
  - left. reflexivity.
Defined.

Lemma parse_chunk_cpu_usage (chunk pkg uid_row : string) (s : Sample) :
  parse_chunk chunk pkg uid_row = Ok (Some s) ->
  exists c, cpu_usage s = Py.or_float c Py.float_zero.
Proof.
  rewrite parse_chunk_unfold. cbv zeta. intros H.
  repeat match type of H with
         | bind ?c _ = _ => destruct c; simpl in H; [|discriminate]
         end.
  match type of H with
  | match ?ts with _ => _ end = _ => destruct ts; [|discriminate]
  end.
  injection H as <-. simpl. eauto.
Qed.

(** X21. No sample carries a negative zero: [cpu or 0.0] turns both zeros
    into [0.0], so the [cpu_usage] of a sample is [0.0] or not zero. *)
Theorem cpu_usage_never_negative_zero (m pkg uid_row : string) (out : list Sample)
    (s : Sample) :
  parse_metrics (Some m) pkg uid_row = Ok out -> In s out ->
  cpu_usage s = Py.float_zero \/ Py.truthy_float (cpu_usage s) = true.
Proof.
  intros H Hin.
  destruct (parse_metrics_samples _ _ _ _ _ H Hin) as (_ & chunk & _ & _ & Hs).
  destruct (parse_chunk_cpu_usage _ _ _ _ Hs) as [c ->].
  destruct c as [x|]; simpl; [|auto].
  destruct (Py.truthy_float x) eqn:E; auto.
Qed.

Lemma cpu_usage_never_negative_zero_witness :
  cpu_usage negative_usage_sample = Py.float_zero
  \/ Py.truthy_float (cpu_usage negative_usage_sample) = true.
Proof.
  apply (cpu_usage_never_negative_zero negative_usage_blob "com.a" "10"
           [negative_usage_sample]).
  - vm_compute. reflexivity.
  - left. reflexivity.
Defined.
